(** * The data-center scheduling core

    A shallow embedding of
    [maro/simulator/scenarios/data_center/business_engine.py]
    (class [DataCenterBusinessEngine]) and the properties of its three
    event handlers, of its tick and of its metrics.

    Conventions of the embedding.
    - Python [int] is [Z]; the utilisation percentages, which the source
      computes with true division [/], are exact rationals [Q].  Rounding
      of the machine floats is not modelled: what is stated of a
      utilisation is the formula of the source that computes it, never
      that two different computations agree.
    - [self._vm], a [dict], is a [gmap Z VirtualMachine.t]; a PM's [vm_set]
      is a [gset Z]; [self._machines], a [list] read with [xs[i]], is a
      [list] read with Python's index rule (negative indices count from the
      end, anything else out of range raises [IndexError]).
    - The handlers run in a state-and-exception monad over the engine.  A
      raised exception keeps the engine as it was mutated up to the raising
      statement, as in Python.
    - Objects that a handler mutates in place and that its caller still
      holds (the triggering event with its payload) are returned by the
      handler in their mutated form.  The event buffer is the log of the
      events handed to [insert_event], each as it was when it was
      inserted. *)

From Stdlib Require Import ZArith QArith Lia.
From stdpp Require Import gmap list strings.

Set Warnings "-register-all".
Open Scope Z_scope.

(** ** Entities *)

Module VirtualMachine.
(** Modelled from the spec: the class [VirtualMachine]
    (virtual_machine.py) is not part of the sources at hand.  Its
    attributes are the ones the engine reads and writes; the source reads
    the identity both as [vm.id] and as [vm_req.vm_id], which is the one
    field [id] here.  [cpu_utilization] is the per-VM utilisation curve
    keyed by the ticks elapsed since [start_tick]. *)
Record t := mk {
  id : Z;
  req_cpu : Z;
  req_mem : Z;
  lifetime : Z;
  pm_id : Z;
  util_cpu : Q;
  start_tick : Z;
  end_tick : Z;
  cpu_utilization : Z -> Q
}.

(** Modelled from the spec: [get_util(cur_tick)] evaluates the curve at
    [cur_tick - start_tick]. *)
Definition get_util (vm : t) (cur_tick : Z) : Q :=
  cpu_utilization vm (cur_tick - start_tick vm).

Definition set_pm_id (v : Z) (vm : t) : t :=
  mk (id vm) (req_cpu vm) (req_mem vm) (lifetime vm) v (util_cpu vm)
     (start_tick vm) (end_tick vm) (cpu_utilization vm).
Definition set_start_tick (v : Z) (vm : t) : t :=
  mk (id vm) (req_cpu vm) (req_mem vm) (lifetime vm) (pm_id vm) (util_cpu vm)
     v (end_tick vm) (cpu_utilization vm).
Definition set_end_tick (v : Z) (vm : t) : t :=
  mk (id vm) (req_cpu vm) (req_mem vm) (lifetime vm) (pm_id vm) (util_cpu vm)
     (start_tick vm) v (cpu_utilization vm).
Definition set_util_cpu (v : Q) (vm : t) : t :=
  mk (id vm) (req_cpu vm) (req_mem vm) (lifetime vm) (pm_id vm) v
     (start_tick vm) (end_tick vm) (cpu_utilization vm).
End VirtualMachine.

Module PhysicalMachine.
(** Modelled from the spec: the class [PhysicalMachine]
    (physical_machine.py) is not part of the sources at hand.  A machine
    is created with its id and capacities, nothing reserved, utilisation
    zero and no hosted VM. *)
Record t := mk {
  id : Z;
  cap_cpu : Z;
  cap_mem : Z;
  req_cpu : Z;
  req_mem : Z;
  util_cpu : Q;
  vm_set : gset Z
}.

Definition init (id cap_cpu cap_mem : Z) : t :=
  mk id cap_cpu cap_mem 0 0 0%Q ∅.

Definition set_req_cpu (v : Z) (pm : t) : t :=
  mk (id pm) (cap_cpu pm) (cap_mem pm) v (req_mem pm) (util_cpu pm) (vm_set pm).
Definition set_req_mem (v : Z) (pm : t) : t :=
  mk (id pm) (cap_cpu pm) (cap_mem pm) (req_cpu pm) v (util_cpu pm) (vm_set pm).
Definition set_util_cpu (v : Q) (pm : t) : t :=
  mk (id pm) (cap_cpu pm) (cap_mem pm) (req_cpu pm) (req_mem pm) v (vm_set pm).
Definition set_vm_set (v : gset Z) (pm : t) : t :=
  mk (id pm) (cap_cpu pm) (cap_mem pm) (req_cpu pm) (req_mem pm) (util_cpu pm) v.

(** Modelled from the spec: [add_vm] adds the id to [vm_set] and
    [remove_vm] removes it; a set that does not hold the id is left as it
    is. *)
Definition add_vm (vm_id : Z) (pm : t) : t :=
  set_vm_set ({[vm_id]} ∪ vm_set pm) pm.
Definition remove_vm (vm_id : Z) (pm : t) : t :=
  set_vm_set (vm_set pm ∖ {[vm_id]}) pm.
End PhysicalMachine.

(** ** Metrics, payloads and events *)

Module Latency.
(** Modelled from the spec: the class [Latency] (common.py) is not part of
    the sources at hand; both accumulators start at zero. *)
Record t := mk {
  latency_due_to_agent : Z;
  latency_due_to_resource : Z
}.
Definition init : t := mk 0 0.
End Latency.

(** One entry of [valid_pm_list]: the dict [{"id", "cpu", "mem"}]. *)
Module ValidPm.
Record t := mk { id : Z; cpu : Z; mem : Z }.
End ValidPm.

(** Modelled from the spec: the payload classes and [Action] (common.py)
    are not part of the sources at hand; their attributes are the ones the
    engine reads and writes. *)
Module VmRequirementPayload.
Record t := mk { vm_req : VirtualMachine.t; buffer_time : Z }.
End VmRequirementPayload.

Module VmFinishedPayload.
Record t := mk { vm_id : Z }.
End VmFinishedPayload.

Module DecisionPayload.
Record t := mk {
  valid_pm : list ValidPm.t;
  vm_info : VirtualMachine.t;
  buffer_time : Z
}.
End DecisionPayload.

Module Action.
Record t := mk {
  vm_req : VirtualMachine.t;
  assign : bool;
  pm_id : Z;
  buffer_time : Z
}.
End Action.

(** What an event can carry; [PNone] is Python's [None]. *)
Inductive Payload :=
| PNone
| PRequirement (p : VmRequirementPayload.t)
| PFinished (p : VmFinishedPayload.t)
| PDecision (p : DecisionPayload.t)
| PAction (a : Action.t).

(** Modelled from the spec: the scenario's [Events] (events.py) together
    with the two [MaroEvents] the engine deals with. *)
Inductive EventType := REQUIREMENTS | FINISHED | PENDING_DECISION | TAKE_ACTION.

#[export] Instance EventType_eq_dec : EqDecision EventType.
Proof. solve_decision. Defined.

(** An event of the buffer.  [event_type] is the kind under which the
    buffer delivers the event, [None] for an event of a kind other than
    the four above. *)
Inductive Event := mkEvent {
  tick : Z;
  event_type : option EventType;
  payload : Payload;
  immediate_event_list : list Event
}.

Definition set_payload (p : Payload) (e : Event) : Event :=
  mkEvent (tick e) (event_type e) p (immediate_event_list e).

(** [CascadeEvent.add_immediate_event]. *)
Definition add_immediate_event (child : Event) (e : Event) : Event :=
  mkEvent (tick e) (event_type e) (payload e) (immediate_event_list e ++ [child]).

(** Modelled from the spec: the event buffer ([maro.event_buffer]) is not
    part of the sources at hand.  Its generators build an event from its
    kind, its tick and its payload ([generate(kind, tick, payload)]); the
    kind is a required argument. *)
Definition gen_cascade_event (tick : Z) (event_type : EventType)
    (payload : Payload) : Event :=
  mkEvent tick (Some event_type) payload [].

Definition gen_atom_event (tick : Z) (event_type : EventType)
    (payload : Payload) : Event :=
  mkEvent tick (Some event_type) payload [].

(** Modelled from the spec: [gen_decision_event] takes no event type; the
    buffer makes it a decision request. *)
Definition gen_decision_event (tick : Z) (payload : Payload) : Event :=
  mkEvent tick (Some PENDING_DECISION) payload [].

(** ** The engine *)

Record Engine := mkEngine {
  _energy_consumption : Z;
  _successful_requirements : Z;
  _failed_requirements : Z;
  _total_latency : Latency.t;
  _delay_duration : Z;
  _pm_amount : Z;
  _pm_cap_cpu : Z;
  _pm_cap_mem : Z;
  _machines : list PhysicalMachine.t;
  _vm : gmap Z VirtualMachine.t;
  _tick : Z;
  _pending_action_vm_id : Z;
  (** events handed to [insert_event], oldest first *)
  _event_buffer : list Event;
  (** lines written by [print] *)
  stdout : list string
}.

Definition set_successful_requirements (v : Z) (s : Engine) : Engine :=
  mkEngine (_energy_consumption s) v (_failed_requirements s) (_total_latency s)
    (_delay_duration s) (_pm_amount s) (_pm_cap_cpu s) (_pm_cap_mem s)
    (_machines s) (_vm s) (_tick s) (_pending_action_vm_id s) (_event_buffer s)
    (stdout s).
Definition set_failed_requirements (v : Z) (s : Engine) : Engine :=
  mkEngine (_energy_consumption s) (_successful_requirements s) v (_total_latency s)
    (_delay_duration s) (_pm_amount s) (_pm_cap_cpu s) (_pm_cap_mem s)
    (_machines s) (_vm s) (_tick s) (_pending_action_vm_id s) (_event_buffer s)
    (stdout s).
Definition set_total_latency (v : Latency.t) (s : Engine) : Engine :=
  mkEngine (_energy_consumption s) (_successful_requirements s)
    (_failed_requirements s) v
    (_delay_duration s) (_pm_amount s) (_pm_cap_cpu s) (_pm_cap_mem s)
    (_machines s) (_vm s) (_tick s) (_pending_action_vm_id s) (_event_buffer s)
    (stdout s).
Definition set_machines (v : list PhysicalMachine.t) (s : Engine) : Engine :=
  mkEngine (_energy_consumption s) (_successful_requirements s)
    (_failed_requirements s) (_total_latency s)
    (_delay_duration s) (_pm_amount s) (_pm_cap_cpu s) (_pm_cap_mem s)
    v (_vm s) (_tick s) (_pending_action_vm_id s) (_event_buffer s)
    (stdout s).
Definition set_vm (v : gmap Z VirtualMachine.t) (s : Engine) : Engine :=
  mkEngine (_energy_consumption s) (_successful_requirements s)
    (_failed_requirements s) (_total_latency s)
    (_delay_duration s) (_pm_amount s) (_pm_cap_cpu s) (_pm_cap_mem s)
    (_machines s) v (_tick s) (_pending_action_vm_id s) (_event_buffer s)
    (stdout s).
Definition set_pending_action_vm_id (v : Z) (s : Engine) : Engine :=
  mkEngine (_energy_consumption s) (_successful_requirements s)
    (_failed_requirements s) (_total_latency s)
    (_delay_duration s) (_pm_amount s) (_pm_cap_cpu s) (_pm_cap_mem s)
    (_machines s) (_vm s) (_tick s) v (_event_buffer s)
    (stdout s).
Definition set_event_buffer (v : list Event) (s : Engine) : Engine :=
  mkEngine (_energy_consumption s) (_successful_requirements s)
    (_failed_requirements s) (_total_latency s)
    (_delay_duration s) (_pm_amount s) (_pm_cap_cpu s) (_pm_cap_mem s)
    (_machines s) (_vm s) (_tick s) (_pending_action_vm_id s) v
    (stdout s).
Definition set_stdout (v : list string) (s : Engine) : Engine :=
  mkEngine (_energy_consumption s) (_successful_requirements s)
    (_failed_requirements s) (_total_latency s)
    (_delay_duration s) (_pm_amount s) (_pm_cap_cpu s) (_pm_cap_mem s)
    (_machines s) (_vm s) (_tick s) (_pending_action_vm_id s) (_event_buffer s)
    v.

Arguments set_successful_requirements _ _ /.
Arguments set_failed_requirements _ _ /.
Arguments set_total_latency _ _ /.
Arguments set_machines _ _ /.
Arguments set_vm _ _ /.
Arguments set_pending_action_vm_id _ _ /.
Arguments set_event_buffer _ _ /.
Arguments set_stdout _ _ /.

(** The configuration read by [_load_configs] from [config.yml]. *)
Record Config := mkConfig {
  delay_duration : Z;
  pm_amount : Z;
  pm_cap_cpu : Z;
  pm_cap_mem : Z
}.

(** [_init_machines]: ids [0 .. pm_amount - 1], all with the configured
    capacity ([range] of a negative amount is empty). *)
Definition _init_machines (pm_amount cap_cpu cap_mem : Z) : list PhysicalMachine.t :=
  map (fun i : nat => PhysicalMachine.init (Z.of_nat i) cap_cpu cap_mem)
      (seq 0 (Z.to_nat pm_amount)).

(** [__init__]. *)
Definition init (c : Config) : Engine :=
  mkEngine 0 0 0 Latency.init
    (delay_duration c) (pm_amount c) (pm_cap_cpu c) (pm_cap_mem c)
    (_init_machines (pm_amount c) (pm_cap_cpu c) (pm_cap_mem c))
    ∅ 0 (-1) [] [].

(** ** Python's exceptions and the handler monad *)

Inductive exn :=
| KeyError | IndexError | ZeroDivisionError | AttributeError | TypeError.

Inductive outcome (A : Type) :=
| Ok (a : A)
| Raise (e : exn).
Arguments Ok {A} a.
Arguments Raise {A} e.

(** A computation on the engine: its outcome and the engine it leaves. *)
Definition M (A : Type) : Type := Engine -> outcome A * Engine.

Definition ret {A} (a : A) : M A := fun s => (Ok a, s).
Definition raise {A} (e : exn) : M A := fun s => (Raise e, s).
Definition bind {A B} (m : M A) (k : A -> M B) : M B :=
  fun s =>
    match m s with
    | (Ok a, s') => k a s'
    | (Raise e, s') => (Raise e, s')
    end.
Definition get : M Engine := fun s => (Ok s, s).
Definition modify (f : Engine -> Engine) : M unit := fun s => (Ok tt, f s).
Definition lift_opt {A} (e : exn) (o : option A) : M A :=
  match o with
  | Some a => ret a
  | None => raise e
  end.

Notation "'let*' x ':=' m 'in' k" := (bind m (fun x => k))
  (at level 10, x name, m at level 100, k at level 200).
Notation "'exec' m 'in' k" := (bind m (fun _ => k))
  (at level 10, m at level 100, k at level 200).

(** [xs[i]] on a Python list: the position read, if any. *)
Definition py_index {A} (l : list A) (i : Z) : option nat :=
  let n := Z.of_nat (length l) in
  if decide (0 <= i < n) then Some (Z.to_nat i)
  else if decide (- n <= i < 0) then Some (Z.to_nat (n + i))
  else None.

(** [a / b] on Python numbers. *)
Definition truediv (a b : Q) : M Q :=
  if Qeq_bool b 0 then raise ZeroDivisionError else ret (a / b)%Q.

Arguments py_index : simpl never.
Arguments truediv : simpl never.

(** [self._machines[pm_id]]: the position of the machine object. *)
Definition machine_index (pm_id : Z) : M nat :=
  let* s := get in lift_opt IndexError (py_index (_machines s) pm_id).

(** Reading the machine object held at a position. *)
Definition machine_at (i : nat) : M PhysicalMachine.t :=
  let* s := get in lift_opt IndexError (_machines s !! i).

(** An attribute assignment on the machine object held at a position. *)
Definition update_machine (i : nat) (f : PhysicalMachine.t -> PhysicalMachine.t)
    : M unit :=
  modify (fun s => set_machines (alter f i (_machines s)) s).

(** [self._vm[vm_id]]. *)
Definition vm_getitem (vm_id : Z) : M VirtualMachine.t :=
  let* s := get in lift_opt KeyError (_vm s !! vm_id).

(** [self._vm[vm_id] = vm]. *)
Definition vm_setitem (vm_id : Z) (vm : VirtualMachine.t) : M unit :=
  modify (fun s => set_vm (<[vm_id := vm]> (_vm s)) s).

(** [self._vm.pop(vm_id)]. *)
Definition vm_pop (vm_id : Z) : M VirtualMachine.t :=
  let* vm := vm_getitem vm_id in
  exec modify (fun s => set_vm (delete vm_id (_vm s)) s) in
  ret vm.

(** [self._event_buffer.insert_event(event)]. *)
Definition insert_event (e : Event) : M unit :=
  modify (fun s => set_event_buffer (_event_buffer s ++ [e]) s).

Definition print (line : string) : M unit :=
  modify (fun s => set_stdout (stdout s ++ [line]) s).

(** A call [gen(tick=..., payload=...)] of a generator of the event buffer
    that passes no [event_type]: Python raises [TypeError] for the missing
    argument, and the generator does not run. *)
Definition call_without_event_type (gen : Z -> EventType -> Payload -> Event)
    (tick : Z) (payload : Payload) : M Event :=
  raise TypeError.

(** [payload.vm_req] and [payload.buffer_time]: the attribute is read from
    whatever object the event carries.  A requirement payload and an action
    have both; a decision payload has [buffer_time] only; a finished
    payload and [None] have neither. *)
Definition getattr_vm_req (p : Payload) : M VirtualMachine.t :=
  match p with
  | PRequirement r => ret (VmRequirementPayload.vm_req r)
  | PAction a => ret (Action.vm_req a)
  | _ => raise AttributeError
  end.

Definition getattr_buffer_time (p : Payload) : M Z :=
  match p with
  | PRequirement r => ret (VmRequirementPayload.buffer_time r)
  | PDecision d => ret (DecisionPayload.buffer_time d)
  | PAction a => ret (Action.buffer_time a)
  | _ => raise AttributeError
  end.

(** [payload.buffer_time = v], on an object that has the attribute. *)
Definition setattr_buffer_time (v : Z) (p : Payload) : Payload :=
  match p with
  | PRequirement r =>
      PRequirement (VmRequirementPayload.mk (VmRequirementPayload.vm_req r) v)
  | PDecision d =>
      PDecision (DecisionPayload.mk (DecisionPayload.valid_pm d)
                   (DecisionPayload.vm_info d) v)
  | PAction a =>
      PAction (Action.mk (Action.vm_req a) (Action.assign a) (Action.pm_id a) v)
  | PFinished _ | PNone => p
  end.

(** Reading the attributes of a finished payload ([vm_id]) and of an action
    ([assign] first): a payload of another class, or [None], does not have
    them. *)
Definition as_finished (p : Payload) : M VmFinishedPayload.t :=
  match p with PFinished r => ret r | _ => raise AttributeError end.
Definition as_action (p : Payload) : M Action.t :=
  match p with PAction a => ret a | _ => raise AttributeError end.

(** ** The handlers *)

(** The comprehension that builds [valid_pm_list] in [_on_vm_required]. *)
Definition valid_pm_list (machines : list PhysicalMachine.t)
    (vm_req : VirtualMachine.t) : list ValidPm.t :=
  map (fun pm =>
         ValidPm.mk (PhysicalMachine.id pm)
           (PhysicalMachine.cap_cpu pm - PhysicalMachine.req_cpu pm)
           (PhysicalMachine.cap_mem pm - PhysicalMachine.req_mem pm))
      (List.filter
         (fun pm =>
            PhysicalMachine.cap_cpu pm - PhysicalMachine.req_cpu pm
              >=? VirtualMachine.req_cpu vm_req)
         machines).

Definition add_latency_due_to_resource (d : Z) (s : Engine) : Engine :=
  set_total_latency
    (Latency.mk (Latency.latency_due_to_agent (_total_latency s))
                (Latency.latency_due_to_resource (_total_latency s) + d)) s.

Definition add_latency_due_to_agent (d : Z) (s : Engine) : Engine :=
  set_total_latency
    (Latency.mk (Latency.latency_due_to_agent (_total_latency s) + d)
                (Latency.latency_due_to_resource (_total_latency s))) s.

(** [_on_vm_required]: callback of a VM requirement.  The result is the
    triggering event as the handler leaves it (its payload is mutated in
    place when the request is postponed, a decision event is attached when
    there are candidates).  The postponed event carries the payload object
    of the triggering event. *)
Definition _on_vm_required (vm_requirement_event : Event) : M Event :=
  let payload := payload vm_requirement_event in
  let* vm_req := getattr_vm_req payload in
  let* remaining_buffer_time := getattr_buffer_time payload in
  let* s := get in
  let valid_pm_list := valid_pm_list (_machines s) vm_req in
  if Z.of_nat (length valid_pm_list) >? 0 then
    let decision_payload :=
      DecisionPayload.mk valid_pm_list vm_req remaining_buffer_time in
    let pending_decision_event :=
      gen_decision_event (tick vm_requirement_event) (PDecision decision_payload) in
    exec modify (set_pending_action_vm_id (VirtualMachine.id vm_req)) in
    ret (add_immediate_event pending_decision_event vm_requirement_event)
  else if remaining_buffer_time >? 0 then
    let postpone_payload :=
      setattr_buffer_time (remaining_buffer_time - _delay_duration s) payload in
    exec modify (add_latency_due_to_resource (_delay_duration s)) in
    let postpone_event :=
      gen_cascade_event (tick vm_requirement_event + _delay_duration s)
        REQUIREMENTS postpone_payload in
    exec insert_event postpone_event in
    ret (set_payload postpone_payload vm_requirement_event)
  else
    exec modify (fun s => set_failed_requirements (_failed_requirements s + 1) s) in
    ret vm_requirement_event.

(** [_on_vm_finished]: callback of the end of a VM's life. *)
Definition _on_vm_finished (evt : Event) : M unit :=
  let* payload := as_finished (payload evt) in
  let vm_id := VmFinishedPayload.vm_id payload in
  let* virtual_machine := vm_getitem vm_id in
  (* Release PM resources. *)
  let* i := machine_index (VirtualMachine.pm_id virtual_machine) in
  exec update_machine i (fun pm =>
    PhysicalMachine.set_req_cpu
      (PhysicalMachine.req_cpu pm - VirtualMachine.req_cpu virtual_machine) pm) in
  exec update_machine i (fun pm =>
    PhysicalMachine.set_req_mem
      (PhysicalMachine.req_mem pm - VirtualMachine.req_mem virtual_machine) pm) in
  let* physical_machine := machine_at i in
  let* u :=
    truediv
      (inject_Z (PhysicalMachine.cap_cpu physical_machine)
         * PhysicalMachine.util_cpu physical_machine
       - inject_Z (VirtualMachine.req_cpu virtual_machine)
         * VirtualMachine.util_cpu virtual_machine)%Q
      (inject_Z (PhysicalMachine.cap_cpu physical_machine)) in
  exec update_machine i (PhysicalMachine.set_util_cpu u) in
  exec update_machine i (PhysicalMachine.remove_vm vm_id) in
  (* Remove dead VM. *)
  let* _ := vm_pop vm_id in
  (* VM allocation succeed. *)
  modify (fun s => set_successful_requirements (_successful_requirements s + 1) s).

(** [_on_action_received]: callback of the agent's action.  The result is
    the triggering event as the handler leaves it (the VM object of the
    action is mutated in place when it is assigned).  Neither
    [gen_atom_event] nor [gen_cascade_event] is given an [event_type]
    here: both calls raise, and the statements after them are not
    reached. *)
Definition _on_action_received (evt : Event) : M Event :=
  let cur_tick := tick evt in
  let* action := as_action (payload evt) in
  let assign := Action.assign action in
  let vm := Action.vm_req action in
  let* s := get in
  exec (if decide (VirtualMachine.id vm <> _pending_action_vm_id s)
        then print "The VM id sent by agent is invalid."
        else ret tt) in
  if assign then
    let pm_id := Action.pm_id action in
    let lifetime := VirtualMachine.lifetime vm in
    (* Update VM information. *)
    let vm := VirtualMachine.set_pm_id pm_id vm in
    let vm := VirtualMachine.set_start_tick cur_tick vm in
    let vm := VirtualMachine.set_end_tick (cur_tick + lifetime) vm in
    let vm := VirtualMachine.set_util_cpu (VirtualMachine.get_util vm cur_tick) vm in
    exec vm_setitem (VirtualMachine.id vm) vm in
    (* Generate VM finished event. *)
    let finished_payload := VmFinishedPayload.mk (VirtualMachine.id vm) in
    let* finished_event :=
      call_without_event_type gen_atom_event
        (cur_tick + lifetime) (PFinished finished_payload) in
    exec insert_event finished_event in
    (* Update PM resources requested by VM. *)
    let* i := machine_index pm_id in
    exec update_machine i (PhysicalMachine.add_vm (VirtualMachine.id vm)) in
    exec update_machine i (fun pm =>
      PhysicalMachine.set_req_cpu
        (PhysicalMachine.req_cpu pm + VirtualMachine.req_cpu vm) pm) in
    exec update_machine i (fun pm =>
      PhysicalMachine.set_req_mem
        (PhysicalMachine.req_mem pm + VirtualMachine.req_mem vm) pm) in
    let* pm := machine_at i in
    let* u :=
      truediv
        (inject_Z (PhysicalMachine.cap_cpu pm) * PhysicalMachine.util_cpu pm
         + inject_Z (VirtualMachine.req_cpu vm) * VirtualMachine.util_cpu vm)%Q
        (inject_Z (PhysicalMachine.cap_cpu pm)) in
    exec update_machine i (PhysicalMachine.set_util_cpu u) in
    ret (set_payload
           (PAction (Action.mk vm assign pm_id (Action.buffer_time action))) evt)
  else
    let remaining_buffer_time := Action.buffer_time action in
    (* Postpone the buffer duration ticks by config setting. *)
    if remaining_buffer_time >? 0 then
      let requirement_payload :=
        VmRequirementPayload.mk vm (remaining_buffer_time - _delay_duration s) in
      exec modify (add_latency_due_to_agent (_delay_duration s)) in
      let* postpone_event :=
        call_without_event_type gen_cascade_event
          (tick evt + _delay_duration s) (PRequirement requirement_payload) in
      exec insert_event postpone_event in
      ret evt
    else
      exec modify (fun s => set_failed_requirements (_failed_requirements s + 1) s) in
      ret evt.


(** ** Delivery of events to the handlers *)

Definition discard {A} (m : M A) : M unit := let* _ := m in ret tt.

(** [_register_events]: the handler registered for each event type. *)
Definition registered_handler (t : EventType) : option (Event -> M unit) :=
  match t with
  | REQUIREMENTS => Some (fun evt => discard (_on_vm_required evt))
  | FINISHED => Some _on_vm_finished
  | TAKE_ACTION => Some (fun evt => discard (_on_action_received evt))
  | PENDING_DECISION => None
  end.

(** Modelled from the spec: the dispatcher of the event buffer hands an
    event to the handler registered for its kind, if there is one. *)
Definition deliver (evt : Event) : option (M unit) :=
  match event_type evt with
  | Some t =>
      match registered_handler t with
      | Some h => Some (h evt)
      | None => None
      end
  | None => None
  end.

(** One invocation of a handler. *)
Inductive Input :=
| Requirement (evt : Event)
| Finish (evt : Event)
| TakeAction (evt : Event).

Definition handle (i : Input) : M unit :=
  match i with
  | Requirement evt => discard (_on_vm_required evt)
  | Finish evt => _on_vm_finished evt
  | TakeAction evt => discard (_on_action_received evt)
  end.

(** A run: the handlers are invoked one after the other, each on the engine
    that the one before left, whether it returned or raised (an exception
    goes to the caller; the engine stays as the handler mutated it).  An
    input that the guard [ok] refuses ends the run. *)
Fixpoint run (ok : Engine -> Input -> bool) (inputs : list Input) (s : Engine)
    : option Engine :=
  match inputs with
  | [] => Some s
  | i :: rest => if ok s i then run ok rest (snd (handle i s)) else None
  end.

(** The states a guarded run can reach from initialisation. *)
Definition reachable (ok : Engine -> Input -> bool) (c : Config) (s : Engine)
    : Prop :=
  exists inputs, run ok inputs (init c) = Some s.

(** No restriction on the inputs. *)
Definition any_input (s : Engine) (i : Input) : bool := true.

(** Guard: the invocation returns.  A run under this guard is one that the
    first exception would have ended. *)
Definition returning (s : Engine) (i : Input) : bool :=
  match fst (handle i s) with
  | Ok _ => true
  | Raise _ => false
  end.

(** The action of an input that asks for an assignment. *)
Definition assignment_of (i : Input) : option Action.t :=
  match i with
  | TakeAction evt =>
      match payload evt with
      | PAction a => if Action.assign a then Some a else None
      | _ => None
      end
  | _ => None
  end.

(** Guard: the VM of an assignment asks for no negative amount of CPU or
    of memory. *)
Definition nonnegative_requests (s : Engine) (i : Input) : bool :=
  match assignment_of i with
  | Some a =>
      (0 <=? VirtualMachine.req_cpu (Action.vm_req a))
      && (0 <=? VirtualMachine.req_mem (Action.vm_req a))
  | None => true
  end.

(** Guard: the invocation returns, or it keeps to non-negative requests. *)
Definition returning_or_nonnegative (s : Engine) (i : Input) : bool :=
  returning s i || nonnegative_requests s i.

(** ** What the handlers leave behind *)

(** The machine object after the release statements of [_on_vm_finished]. *)
Definition released (vm_id : Z) (vm : VirtualMachine.t) (pm : PhysicalMachine.t)
    : PhysicalMachine.t :=
  PhysicalMachine.mk (PhysicalMachine.id pm)
    (PhysicalMachine.cap_cpu pm) (PhysicalMachine.cap_mem pm)
    (PhysicalMachine.req_cpu pm - VirtualMachine.req_cpu vm)
    (PhysicalMachine.req_mem pm - VirtualMachine.req_mem vm)
    ((inject_Z (PhysicalMachine.cap_cpu pm) * PhysicalMachine.util_cpu pm
      - inject_Z (VirtualMachine.req_cpu vm) * VirtualMachine.util_cpu vm)
     / inject_Z (PhysicalMachine.cap_cpu pm))%Q
    (PhysicalMachine.vm_set pm ∖ {[vm_id]}).

(** The machine object of [_on_vm_finished] once the reservations are
    subtracted, before its utilisation is computed. *)
Definition unreserved (vm : VirtualMachine.t) (pm : PhysicalMachine.t)
    : PhysicalMachine.t :=
  PhysicalMachine.mk (PhysicalMachine.id pm)
    (PhysicalMachine.cap_cpu pm) (PhysicalMachine.cap_mem pm)
    (PhysicalMachine.req_cpu pm - VirtualMachine.req_cpu vm)
    (PhysicalMachine.req_mem pm - VirtualMachine.req_mem vm)
    (PhysicalMachine.util_cpu pm)
    (PhysicalMachine.vm_set pm).

(** The VM object after "Update VM information" in [_on_action_received]. *)
Definition placed (a : Action.t) (cur_tick : Z) : VirtualMachine.t :=
  let vm := Action.vm_req a in
  let vm := VirtualMachine.set_pm_id (Action.pm_id a) vm in
  let vm := VirtualMachine.set_start_tick cur_tick vm in
  let vm := VirtualMachine.set_end_tick (cur_tick + VirtualMachine.lifetime vm) vm in
  VirtualMachine.set_util_cpu (VirtualMachine.get_util vm cur_tick) vm.

(** The machine object that the statements under "Update PM resources
    requested by VM" would leave. *)
Definition hosting (vm : VirtualMachine.t) (pm : PhysicalMachine.t)
    : PhysicalMachine.t :=
  PhysicalMachine.mk (PhysicalMachine.id pm)
    (PhysicalMachine.cap_cpu pm) (PhysicalMachine.cap_mem pm)
    (PhysicalMachine.req_cpu pm + VirtualMachine.req_cpu vm)
    (PhysicalMachine.req_mem pm + VirtualMachine.req_mem vm)
    ((inject_Z (PhysicalMachine.cap_cpu pm) * PhysicalMachine.util_cpu pm
      + inject_Z (VirtualMachine.req_cpu vm) * VirtualMachine.util_cpu vm)
     / inject_Z (PhysicalMachine.cap_cpu pm))%Q
    ({[VirtualMachine.id vm]} ∪ PhysicalMachine.vm_set pm).

(** What [print] has written once the id of the action's VM was compared
    with the pending one. *)
Definition mismatch_reported (vm : VirtualMachine.t) (s : Engine) : list string :=
  if decide (VirtualMachine.id vm <> _pending_action_vm_id s)
  then stdout s ++ ["The VM id sent by agent is invalid."%string]
  else stdout s.

(** The engine once the assign branch has stored the VM, which is where
    the call of [gen_atom_event] raises. *)
Definition assign_stored (evt : Event) (a : Action.t) (s : Engine) : Engine :=
  set_vm (<[VirtualMachine.id (Action.vm_req a) := placed a (tick evt)]> (_vm s))
    (set_stdout (mismatch_reported (Action.vm_req a) s) s).

(** The engine once the postpone branch has added the delay to the
    latency, which is where the call of [gen_cascade_event] raises. *)
Definition postpone_charged (a : Action.t) (s : Engine) : Engine :=
  add_latency_due_to_agent (_delay_duration s)
    (set_stdout (mismatch_reported (Action.vm_req a) s) s).

(** The VM descriptor and the buffer time that [_on_vm_required] reads from
    a payload, when it has both attributes. *)
Definition requirement_of (p : Payload) : option (VirtualMachine.t * Z) :=
  match p with
  | PRequirement r =>
      Some (VmRequirementPayload.vm_req r, VmRequirementPayload.buffer_time r)
  | PAction a => Some (Action.vm_req a, Action.buffer_time a)
  | _ => None
  end.

(** ** The outcomes of a handler invocation *)

(** [returned s i s']: the conditions under which the invocation [i]
    returns from the engine [s], with the engine [s'] it leaves. *)
Inductive returned (s : Engine) : Input -> Engine -> Prop :=
| returned_decision evt vm_req b :
    requirement_of (payload evt) = Some (vm_req, b) ->
    valid_pm_list (_machines s) vm_req <> [] ->
    returned s (Requirement evt)
      (set_pending_action_vm_id (VirtualMachine.id vm_req) s)
| returned_postponed evt vm_req b :
    requirement_of (payload evt) = Some (vm_req, b) ->
    valid_pm_list (_machines s) vm_req = [] ->
    b > 0 ->
    returned s (Requirement evt)
      (set_event_buffer
         (_event_buffer s
            ++ [mkEvent (tick evt + _delay_duration s) (Some REQUIREMENTS)
                  (setattr_buffer_time (b - _delay_duration s) (payload evt))
                  []])
         (add_latency_due_to_resource (_delay_duration s) s))
| returned_failed evt vm_req b :
    requirement_of (payload evt) = Some (vm_req, b) ->
    valid_pm_list (_machines s) vm_req = [] ->
    b <= 0 ->
    returned s (Requirement evt)
      (set_failed_requirements (_failed_requirements s + 1) s)
| returned_finished evt vm_id vm i pm :
    payload evt = PFinished (VmFinishedPayload.mk vm_id) ->
    _vm s !! vm_id = Some vm ->
    py_index (_machines s) (VirtualMachine.pm_id vm) = Some i ->
    _machines s !! i = Some pm ->
    PhysicalMachine.cap_cpu pm <> 0 ->
    returned s (Finish evt)
      (set_successful_requirements (_successful_requirements s + 1)
         (set_vm (delete vm_id (_vm s))
            (set_machines (<[i := released vm_id vm pm]> (_machines s)) s)))
| returned_agent_failed evt a :
    payload evt = PAction a ->
    Action.assign a = false ->
    Action.buffer_time a <= 0 ->
    returned s (TakeAction evt)
      (set_failed_requirements (_failed_requirements s + 1)
         (set_stdout (mismatch_reported (Action.vm_req a) s) s)).

(** [raised s i e s']: the conditions under which the invocation [i] raises
    [e] from the engine [s], with the engine [s'] it leaves. *)
Inductive raised (s : Engine) : Input -> exn -> Engine -> Prop :=
| raised_requirement_payload evt :
    requirement_of (payload evt) = None ->
    raised s (Requirement evt) AttributeError s
| raised_finish_payload evt :
    (forall p, payload evt <> PFinished p) ->
    raised s (Finish evt) AttributeError s
| raised_finish_not_live evt vm_id :
    payload evt = PFinished (VmFinishedPayload.mk vm_id) ->
    _vm s !! vm_id = None ->
    raised s (Finish evt) KeyError s
| raised_finish_no_machine evt vm_id vm :
    payload evt = PFinished (VmFinishedPayload.mk vm_id) ->
    _vm s !! vm_id = Some vm ->
    py_index (_machines s) (VirtualMachine.pm_id vm) = None ->
    raised s (Finish evt) IndexError s
| raised_finish_no_capacity evt vm_id vm i pm :
    payload evt = PFinished (VmFinishedPayload.mk vm_id) ->
    _vm s !! vm_id = Some vm ->
    py_index (_machines s) (VirtualMachine.pm_id vm) = Some i ->
    _machines s !! i = Some pm ->
    PhysicalMachine.cap_cpu pm = 0 ->
    raised s (Finish evt) ZeroDivisionError
      (set_machines (<[i := unreserved vm pm]> (_machines s)) s)
| raised_action_payload evt :
    (forall a, payload evt <> PAction a) ->
    raised s (TakeAction evt) AttributeError s
| raised_assign evt a :
    payload evt = PAction a ->
    Action.assign a = true ->
    raised s (TakeAction evt) TypeError (assign_stored evt a s)
| raised_agent_postpone evt a :
    payload evt = PAction a ->
    Action.assign a = false ->
    Action.buffer_time a > 0 ->
    raised s (TakeAction evt) TypeError (postpone_charged a s).

(** ** Totals *)

Definition sum_over {A} (f : A -> Z) (l : list A) : Z :=
  foldr (fun x acc => f x + acc) 0 l.

(** The sum of [g] over the values of a dict. *)
Definition sum_values {A} (g : A -> Z) (m : gmap Z A) : Z :=
  map_fold (fun _ v acc => g v + acc) 0 m.

(** The sum of [f] over the live VMs. *)
Definition live_total (f : VirtualMachine.t -> Z) (m : gmap Z VirtualMachine.t) : Z :=
  sum_values f m.

(** No machine has anything reserved, and no live VM asks for a negative
    amount: what the runs of the handlers keep. *)
Record nothing_reserved (s : Engine) : Prop := {
  nr_req_cpu : forall i pm, _machines s !! i = Some pm ->
    PhysicalMachine.req_cpu pm <= 0;
  nr_req_mem : forall i pm, _machines s !! i = Some pm ->
    PhysicalMachine.req_mem pm <= 0;
  nr_live_cpu : forall k vm, _vm s !! k = Some vm ->
    0 <= VirtualMachine.req_cpu vm;
  nr_live_mem : forall k vm, _vm s !! k = Some vm ->
    0 <= VirtualMachine.req_mem vm
}.

(** ** Relations between the engine before and after a computation *)

(** A computation keeps a relation when the engine it leaves, whatever its
    outcome, is related to the engine it started from. *)
Definition keeps {A} (R : relation Engine) (m : M A) : Prop :=
  forall s, R s (snd (m s)).

(** What identifies a machine. *)
Definition identity (pm : PhysicalMachine.t) : Z * Z * Z :=
  (PhysicalMachine.id pm, PhysicalMachine.cap_cpu pm, PhysicalMachine.cap_mem pm).

(** The configuration and the identity of the machines are the same. *)
Record same_machines (s s' : Engine) : Prop := {
  same_delay_duration : _delay_duration s' = _delay_duration s;
  same_pm_amount : _pm_amount s' = _pm_amount s;
  same_pm_cap_cpu : _pm_cap_cpu s' = _pm_cap_cpu s;
  same_pm_cap_mem : _pm_cap_mem s' = _pm_cap_mem s;
  same_energy_consumption : _energy_consumption s' = _energy_consumption s;
  same_identity : identity <$> _machines s' = identity <$> _machines s
}.

(** ** The postponement chain of one requirement *)

(** The events [insert_event] received between two states. *)
Definition inserted_since (s s' : Engine) : list Event :=
  drop (length (_event_buffer s)) (_event_buffer s').

(** The requirement event is delivered, then the event the handler inserted
    for it, and so on until the handler inserts none.  The result counts the
    re-emissions. *)
Fixpoint postpone_chain (fuel : nat) (evt : Event) (s : Engine)
    : option (nat * Engine) :=
  match fuel with
  | O => None
  | S fuel =>
      match _on_vm_required evt s with
      | (Ok _, s') =>
          match inserted_since s s' with
          | [] => Some (O, s')
          | next :: _ =>
              match postpone_chain fuel next s' with
              | Some (n, s'') => Some (S n, s'')
              | None => None
              end
          end
      | (Raise _, _) => None
      end
  end.

(** The ceiling of [b / d], for [d > 0]. *)
Definition ceil_div (b d : Z) : Z := (b + d - 1) / d.

(** ** A small data centre, for the examples *)

(** One machine with 100 units of CPU and 10 of memory; postponements last
    5 ticks. *)
Definition example_config : Config := mkConfig 5 1 100 10.

(** A VM that asks for 10 units of CPU and 20 of memory, for 10 ticks. *)
Definition example_vm : VirtualMachine.t :=
  VirtualMachine.mk 1 10 20 10 (-1) 0%Q 0 0 (fun _ => 50%Q).

(** A VM that asks for more CPU than any machine has. *)
Definition example_big_vm : VirtualMachine.t :=
  VirtualMachine.mk 2 200 1 10 (-1) 0%Q 0 0 (fun _ => 50%Q).

Definition example_requirement : Event :=
  mkEvent 0 (Some REQUIREMENTS)
    (PRequirement (VmRequirementPayload.mk example_vm 6)) [].

(** Another VM, which asks for 30 units of CPU. *)
Definition example_other_vm : VirtualMachine.t :=
  VirtualMachine.mk 3 30 5 10 (-1) 0%Q 0 0 (fun _ => 50%Q).

Definition example_other_requirement : Event :=
  mkEvent 1 (Some REQUIREMENTS)
    (PRequirement (VmRequirementPayload.mk example_other_vm 6)) [].

Definition example_big_requirement : Event :=
  mkEvent 0 (Some REQUIREMENTS)
    (PRequirement (VmRequirementPayload.mk example_big_vm 6)) [].

Definition example_action : Action.t := Action.mk example_vm true 0 6.

Definition example_assign : Event :=
  mkEvent 0 (Some TAKE_ACTION) (PAction example_action) [].

Definition example_postpone : Event :=
  mkEvent 0 (Some TAKE_ACTION) (PAction (Action.mk example_vm false 0 3)) [].

(** The agent gives up on [example_vm]: no buffer time is left. *)
Definition example_give_up : Event :=
  mkEvent 0 (Some TAKE_ACTION) (PAction (Action.mk example_vm false 0 0)) [].

Definition example_finish : Event :=
  mkEvent 10 (Some FINISHED) (PFinished (VmFinishedPayload.mk 1)) [].

(** The engine after the requirement for [example_vm]: the decision for it
    is pending. *)
Definition example_pending : Engine :=
  snd (handle (Requirement example_requirement) (init example_config)).

(** The engine after the requirement for [example_other_vm]: the decision
    for that VM is the pending one. *)
Definition example_other_pending : Engine :=
  snd (handle (Requirement example_other_requirement) (init example_config)).

(** The engine after the requirement for [example_vm] and the assignment
    that answers it: the VM is live, the machine is as it was. *)
Definition example_assigned : Engine :=
  snd (handle (TakeAction example_assign) example_pending).

(** An engine whose machine hosts [example_vm], with the reservations and
    the utilisation that the statements of the assign branch compute.  It
    is given as such: the assign branch does not get to these
    statements. *)
Definition example_hosting : Engine :=
  set_machines
    [hosting (placed example_action 0) (PhysicalMachine.init 0 100 10)]
    (set_vm {[1 := placed example_action 0]} example_pending).

(** The requirement for [example_vm], the assignment that answers it, the
    VM's finish event. *)
Definition example_inputs : list Input :=
  [Requirement example_requirement; TakeAction example_assign;
   Finish example_finish].

(** The engine after [example_inputs]. *)
Definition example_released : Engine :=
  snd (handle (Finish example_finish) example_assigned).

(** ** The tick and the metrics *)

Definition set_tick (v : Z) (s : Engine) : Engine :=
  mkEngine (_energy_consumption s) (_successful_requirements s)
    (_failed_requirements s) (_total_latency s)
    (_delay_duration s) (_pm_amount s) (_pm_cap_cpu s) (_pm_cap_mem s)
    (_machines s) (_vm s) v (_pending_action_vm_id s) (_event_buffer s)
    (stdout s).
Arguments set_tick _ _ /.

(** The [DocableDict] that [get_metrics] returns, by its four keys. *)
Record Metrics := mkMetrics {
  energy_consumption : Z;
  success_requirements : Z;
  failed_requirements : Z;
  total_latency : Latency.t
}.

(** [get_metrics]. *)
Definition get_metrics : M Metrics :=
  let* s := get in
  ret (mkMetrics (_energy_consumption s) (_successful_requirements s)
         (_failed_requirements s) (_total_latency s)).

(** [_update_vm_util]: every live VM object gets the utilisation of its
    curve at the current tick. *)
Definition _update_vm_util : M unit :=
  let* s := get in
  modify (set_vm
            ((fun vm =>
                VirtualMachine.set_util_cpu
                  (VirtualMachine.get_util vm (_tick s)) vm)
               <$> _vm s)).

(** The inner loop of [_update_pm_util] over the ids of a [vm_set].  The
    order in which Python iterates over a set is not specified; here it is
    the order of [elements]. *)
Fixpoint total_util_cpu_over (vm_ids : list Z) (total_util_cpu : Q) : M Q :=
  match vm_ids with
  | [] => ret total_util_cpu
  | vm_id :: rest =>
      let* vm := vm_getitem vm_id in
      total_util_cpu_over rest
        (total_util_cpu
         + VirtualMachine.util_cpu vm * inject_Z (VirtualMachine.req_cpu vm) / 100)%Q
  end.

(** One entry written by [update_util_series]: the position of the machine,
    the tick and the utilisation recorded. *)
Definition SeriesEntry : Type := nat * Z * Q.

(** The outer loop of [_update_pm_util] over the positions of the machine
    list.  Modelled from the spec: [update_util_series(tick)] appends the
    machine's utilisation to its history, keyed by the tick; the history is
    no field of the machine record here, the entries written are the result
    of the computation. *)
Fixpoint update_pm_util_at (positions : list nat) : M (list SeriesEntry) :=
  match positions with
  | [] => ret []
  | i :: rest =>
      let* pm := machine_at i in
      let* total_util_cpu :=
        total_util_cpu_over (elements (PhysicalMachine.vm_set pm)) 0%Q in
      let* per_cap :=
        truediv total_util_cpu (inject_Z (PhysicalMachine.cap_cpu pm)) in
      exec update_machine i (PhysicalMachine.set_util_cpu (per_cap * 100)%Q) in
      let* s := get in
      let* series := update_pm_util_at rest in
      ret ((i, _tick s, (per_cap * 100)%Q) :: series)
  end.

(** [_update_pm_util]. *)
Definition _update_pm_util : M (list SeriesEntry) :=
  let* s := get in
  update_pm_util_at (seq 0 (length (_machines s))).

(** [step]: the result is the history entries written during the call. *)
Definition step (tick : Z) : M (list SeriesEntry) :=
  exec modify (set_tick tick) in
  (* Update all live VMs CPU utilization. *)
  exec _update_vm_util in
  (* Update all PM CPU utilization. *)
  let* series := _update_pm_util in
  let vm_requirement_event := gen_cascade_event tick REQUIREMENTS PNone in
  exec insert_event vm_requirement_event in
  ret series.

(** ** Runs with ticks *)

(** One call into the engine: a handler invocation or a tick. *)
Inductive Call :=
| Handle (i : Input)
| Step (tick : Z).

Definition call (c : Call) : M unit :=
  match c with
  | Handle i => handle i
  | Step tick => discard (step tick)
  end.

(** The guard of a run looks at the handler invocations only. *)
Definition call_ok (ok : Engine -> Input -> bool) (s : Engine) (c : Call) : bool :=
  match c with
  | Handle i => ok s i
  | Step _ => true
  end.

(** A run with ticks: as [run], each call is made on the engine that the
    call before left, whether it returned or raised. *)
Fixpoint run_calls (ok : Engine -> Input -> bool) (calls : list Call) (s : Engine)
    : option Engine :=
  match calls with
  | [] => Some s
  | c :: rest => if call_ok ok s c then run_calls ok rest (snd (call c s)) else None
  end.

Definition reachable_with_ticks (ok : Engine -> Input -> bool) (c : Config)
    (s : Engine) : Prop :=
  exists calls, run_calls ok calls (init c) = Some s.

(** ** What a tick leaves alone *)

(** What a machine has reserved, and for whom. *)
Definition reservation (pm : PhysicalMachine.t) : Z * Z * Z * Z * Z * gset Z :=
  (PhysicalMachine.id pm, PhysicalMachine.cap_cpu pm, PhysicalMachine.cap_mem pm,
   PhysicalMachine.req_cpu pm, PhysicalMachine.req_mem pm,
   PhysicalMachine.vm_set pm).

(** A VM without its current utilisation. *)
Definition without_util (vm : VirtualMachine.t) : VirtualMachine.t :=
  VirtualMachine.set_util_cpu 0%Q vm.

(** Only utilisations, the tick and the event buffer may differ. *)
Record same_reservations (s s' : Engine) : Prop := {
  same_reservation : reservation <$> _machines s' = reservation <$> _machines s;
  same_live : without_util <$> _vm s' = without_util <$> _vm s;
  same_successful : _successful_requirements s' = _successful_requirements s;
  same_failed : _failed_requirements s' = _failed_requirements s;
  same_latency : _total_latency s' = _total_latency s;
  same_pending : _pending_action_vm_id s' = _pending_action_vm_id s;
  same_stdout : stdout s' = stdout s
}.

(** ** The first half of a tick *)

(** [step] up to the generation of its event. *)
Definition refresh (tick : Z) : M (list SeriesEntry) :=
  exec modify (set_tick tick) in
  exec _update_vm_util in
  _update_pm_util.

(** The event that [step] generates. *)
Definition tick_event (tick : Z) : Event :=
  gen_cascade_event tick REQUIREMENTS PNone.

(** The utilisation that [_update_pm_util] computes for a machine from the
    live table: the contributions of its VMs in the order of [elements]. *)
Definition contribution (m : gmap Z VirtualMachine.t) (vm_id : Z) : Q :=
  match m !! vm_id with
  | Some vm =>
      (VirtualMachine.util_cpu vm * inject_Z (VirtualMachine.req_cpu vm) / 100)%Q
  | None => 0%Q
  end.

Definition total_contribution (m : gmap Z VirtualMachine.t) (vm_ids : list Z)
    (total : Q) : Q :=
  foldl (fun acc vm_id => (acc + contribution m vm_id)%Q) total vm_ids.

Definition pm_util (m : gmap Z VirtualMachine.t) (pm : PhysicalMachine.t) : Q :=
  (total_contribution m (elements (PhysicalMachine.vm_set pm)) 0
   / inject_Z (PhysicalMachine.cap_cpu pm) * 100)%Q.

(** Only utilisations may differ. *)
Record only_utilisation (s s' : Engine) : Prop := {
  ou_reservations : same_reservations s s';
  ou_machines : same_machines s s';
  ou_event_buffer : _event_buffer s' = _event_buffer s;
  ou_tick : _tick s' = _tick s
}.

(** ** What a tick computes *)

(** The live table after [_update_vm_util] at a tick. *)
Definition refreshed (tick : Z) (m : gmap Z VirtualMachine.t)
    : gmap Z VirtualMachine.t :=
  (fun vm => VirtualMachine.set_util_cpu (VirtualMachine.get_util vm tick) vm) <$> m.

(** A machine with the utilisation computed from the live table. *)
Definition recomputed (m : gmap Z VirtualMachine.t) (pm : PhysicalMachine.t)
    : PhysicalMachine.t :=
  PhysicalMachine.set_util_cpu (pm_util m pm) pm.

(** The history entries of the machines from position [k] on. *)
Fixpoint series_from (k : nat) (tick : Z) (m : gmap Z VirtualMachine.t)
    (machines : list PhysicalMachine.t) : list SeriesEntry :=
  match machines with
  | [] => []
  | pm :: rest => (k, tick, pm_util m pm) :: series_from (S k) tick m rest
  end.

(** A machine on which [_update_pm_util] does not raise: its CPU capacity
    is not zero and the ids of its [vm_set] are live. *)
Definition healthy (m : gmap Z VirtualMachine.t) (pm : PhysicalMachine.t) : Prop :=
  PhysicalMachine.cap_cpu pm <> 0
  /\ forall k, k ∈ PhysicalMachine.vm_set pm -> is_Some (m !! k).

(** The utilisation of every machine is the one [_update_pm_util] would
    compute, as rationals. *)
Definition util_consistent (s : Engine) : Prop :=
  forall i pm, _machines s !! i = Some pm ->
    (PhysicalMachine.util_cpu pm == pm_util (_vm s) pm)%Q.

(** ** Counting events and calls *)

(** An event of the requirement handler's postponement: of the requirement
    kind, with a payload that the handler can read (the event of a tick has
    none). *)
Definition postponed_for_resource (e : Event) : bool :=
  match requirement_of (payload e), event_type e with
  | Some _, Some REQUIREMENTS => true
  | _, _ => false
  end.

Definition count_events (f : Event -> bool) (l : list Event) : Z :=
  Z.of_nat (length (List.filter f l)).
Arguments count_events : simpl never.

(** A call of the action handler with an action that postpones while
    buffer time is left. *)
Definition postponing (c : Call) : bool :=
  match c with
  | Handle (TakeAction evt) =>
      match payload evt with
      | PAction a => negb (Action.assign a) && (Action.buffer_time a >? 0)
      | _ => false
      end
  | _ => false
  end.

(** A call of the action handler with an action that assigns. *)
Definition assigning (c : Call) : bool :=
  match c with
  | Handle i =>
      match assignment_of i with
      | Some _ => true
      | None => false
      end
  | Step _ => false
  end.

Definition count_calls (f : Call -> bool) (l : list Call) : Z :=
  Z.of_nat (length (List.filter f l)).
Arguments count_calls : simpl never.

(** When and as what an event was scheduled. *)
Definition schedule (e : Event) : Z * option EventType :=
  (tick e, event_type e).

(** No machine holds the id of a VM. *)
Definition nothing_hosted (s : Engine) : Prop :=
  forall i pm, _machines s !! i = Some pm -> PhysicalMachine.vm_set pm = ∅.

(** ** More of the example data centre *)

(** A tick; a requirement that finds no candidate and is postponed; the
    requirement for [example_vm]; the agent postpones it, then assigns it
    (both calls raise); the VM's finish event; a tick. *)
Definition example_calls : list Call :=
  [Step 0;
   Handle (Requirement example_big_requirement);
   Handle (Requirement example_requirement);
   Handle (TakeAction example_postpone);
   Handle (TakeAction example_assign);
   Handle (Finish example_finish);
   Step 1].

(** [example_calls] up to the finish event. *)
Definition example_finished_calls : list Call :=
  [Step 0;
   Handle (Requirement example_big_requirement);
   Handle (Requirement example_requirement);
   Handle (TakeAction example_postpone);
   Handle (TakeAction example_assign);
   Handle (Finish example_finish)].

(** The engine after a list of calls, whatever their outcomes. *)
Definition after (calls : list Call) (s : Engine) : Engine :=
  foldl (fun s c => snd (call c s)) s calls.

(** The engine after [example_calls]. *)
Definition example_ticked : Engine := after example_calls (init example_config).

(** The engine after [example_finished_calls]. *)
Definition example_finished : Engine :=
  after example_finished_calls (init example_config).

(** An assignment to the last machine, counted from the end. *)
Definition example_negative_assign : Event :=
  mkEvent 0 (Some TAKE_ACTION) (PAction (Action.mk example_vm true (-1) 6)) [].

(** The engine after that assignment. *)
Definition example_negative_assigned : Engine :=
  snd (handle (TakeAction example_negative_assign) example_pending).

(** ** Evaluating the monad *)

Lemma bind_Ok {A B} (m : M A) (k : A -> M B) s a s' :
  m s = (Ok a, s') -> bind m k s = k a s'.
Proof. intros H. unfold bind. now rewrite H. Qed.

Lemma Qeq_bool_inject_Z_0 (c : Z) : Qeq_bool (inject_Z c) 0 = (c =? 0).
Proof. unfold Qeq_bool, inject_Z. simpl. now rewrite Z.mul_1_r. Qed.

Lemma truediv_inject_Z (a : Q) (c : Z) s :
  c <> 0 -> truediv a (inject_Z c) s = (Ok (a / inject_Z c)%Q, s).
Proof.
  intros Hc. unfold truediv. rewrite Qeq_bool_inject_Z_0.
  destruct (Z.eqb_spec c 0); [contradiction | reflexivity].
Qed.

Lemma truediv_by_zero (a : Q) s :
  truediv a (inject_Z 0) s = (Raise ZeroDivisionError, s).
Proof. reflexivity. Qed.

Lemma alter_as_insert {A} (f : A -> A) (l : list A) (i : nat) (x : A) :
  l !! i = Some x -> alter f i l = <[i := f x]> l.
Proof.
  intros Hx. apply list_eq. intros j.
  destruct (decide (i = j)) as [<- | Hne].
  - rewrite list_lookup_alter_eq, Hx. simpl.
    symmetry. apply list_lookup_insert_eq. eapply lookup_lt_Some, Hx.
  - now rewrite list_lookup_alter_ne, list_lookup_insert_ne.
Qed.

Lemma py_index_lt {A} (l : list A) (z : Z) (i : nat) :
  py_index l z = Some i -> (i < length l)%nat.
Proof.
  unfold py_index. intros H.
  destruct (decide (0 <= z < Z.of_nat (length l))) as [Hz | _].
  - injection H as <-. lia.
  - destruct (decide (- Z.of_nat (length l) <= z < 0)) as [Hz | _]; [| discriminate].
    injection H as <-. lia.
Qed.

(** ** The finish handler on a live VM *)

Lemma _on_vm_finished_live s evt vm_id vm i pm :
  payload evt = PFinished (VmFinishedPayload.mk vm_id) ->
  _vm s !! vm_id = Some vm ->
  py_index (_machines s) (VirtualMachine.pm_id vm) = Some i ->
  _machines s !! i = Some pm ->
  PhysicalMachine.cap_cpu pm <> 0 ->
  _on_vm_finished evt s =
    (Ok tt,
     set_successful_requirements (_successful_requirements s + 1)
       (set_vm (delete vm_id (_vm s))
          (set_machines (<[i := released vm_id vm pm]> (_machines s)) s))).
Proof.
  intros Hp Hvm Hi Hpm Hcap. unfold _on_vm_finished. rewrite Hp.
  unfold vm_pop, vm_getitem, machine_index, machine_at, update_machine,
    bind, get, modify, lift_opt, ret, as_finished.
  cbn. rewrite Hvm, Hi. cbn.
  rewrite !list_lookup_alter_eq, Hpm. cbn.
  rewrite truediv_inject_Z by assumption. cbn. rewrite Hvm. cbn.
  rewrite !list_alter_alter_eq, (alter_as_insert _ _ _ _ Hpm).
  reflexivity.
Qed.

(** ** The three handlers, branch by branch *)

Ltac run_monad :=
  unfold discard, vm_pop, vm_getitem, vm_setitem, insert_event, print,
    machine_index, machine_at, update_machine, call_without_event_type,
    bind, get, modify, lift_opt, ret, raise,
    getattr_vm_req, getattr_buffer_time, as_finished, as_action;
  cbn.

Lemma _on_vm_finished_not_live s evt vm_id :
  payload evt = PFinished (VmFinishedPayload.mk vm_id) ->
  _vm s !! vm_id = None ->
  _on_vm_finished evt s = (Raise KeyError, s).
Proof.
  intros Hp Hvm. unfold _on_vm_finished. rewrite Hp. run_monad.
  now rewrite Hvm.
Qed.

Lemma length_pos_gtb {A} (l : list A) :
  (Z.of_nat (length l) >? 0) = match l with [] => false | _ => true end.
Proof. destruct l; [reflexivity |]. cbn [length]. apply Z.gtb_lt. lia. Qed.

(** The requirement handler as one expression over the state, for any
    payload that has the two attributes it reads. *)
Lemma _on_vm_required_of s evt vm_req b :
  requirement_of (payload evt) = Some (vm_req, b) ->
  _on_vm_required evt s =
    match valid_pm_list (_machines s) vm_req with
    | _ :: _ =>
        (Ok (add_immediate_event
               (gen_decision_event (tick evt)
                  (PDecision
                     (DecisionPayload.mk (valid_pm_list (_machines s) vm_req)
                        vm_req b)))
               evt),
         set_pending_action_vm_id (VirtualMachine.id vm_req) s)
    | [] =>
        if b >? 0 then
          let postponed :=
            setattr_buffer_time (b - _delay_duration s) (payload evt) in
          (Ok (set_payload postponed evt),
           set_event_buffer
             (_event_buffer s
                ++ [mkEvent (tick evt + _delay_duration s) (Some REQUIREMENTS)
                      postponed []])
             (add_latency_due_to_resource (_delay_duration s) s))
        else
          (Ok evt, set_failed_requirements (_failed_requirements s + 1) s)
    end.
Proof.
  intros Hp. unfold _on_vm_required.
  destruct (payload evt) as [| p | | | a]; try discriminate;
    cbn in Hp; injection Hp as <- <-; run_monad; rewrite length_pos_gtb.
  - destruct (valid_pm_list (_machines s) (VmRequirementPayload.vm_req p)); cbn.
    + destruct (VmRequirementPayload.buffer_time p >? 0); reflexivity.
    + reflexivity.
  - destruct (valid_pm_list (_machines s) (Action.vm_req a)); cbn.
    + destruct (Action.buffer_time a >? 0); reflexivity.
    + reflexivity.
Qed.

(** The same on a requirement payload. *)
Lemma _on_vm_required_eq s evt p :
  payload evt = PRequirement p ->
  _on_vm_required evt s =
    let vm_req := VmRequirementPayload.vm_req p in
    let b := VmRequirementPayload.buffer_time p in
    match valid_pm_list (_machines s) vm_req with
    | _ :: _ =>
        (Ok (add_immediate_event
               (gen_decision_event (tick evt)
                  (PDecision
                     (DecisionPayload.mk (valid_pm_list (_machines s) vm_req)
                        vm_req b)))
               evt),
         set_pending_action_vm_id (VirtualMachine.id vm_req) s)
    | [] =>
        if b >? 0 then
          let postponed :=
            PRequirement (VmRequirementPayload.mk vm_req (b - _delay_duration s)) in
          (Ok (set_payload postponed evt),
           set_event_buffer
             (_event_buffer s
                ++ [mkEvent (tick evt + _delay_duration s) (Some REQUIREMENTS)
                      postponed []])
             (add_latency_due_to_resource (_delay_duration s) s))
        else
          (Ok evt, set_failed_requirements (_failed_requirements s + 1) s)
    end.
Proof.
  intros Hp.
  rewrite (_on_vm_required_of s evt (VmRequirementPayload.vm_req p)
             (VmRequirementPayload.buffer_time p))
    by (rewrite Hp; reflexivity).
  rewrite Hp. reflexivity.
Qed.

Lemma _on_vm_required_bad_payload s evt :
  requirement_of (payload evt) = None ->
  _on_vm_required evt s = (Raise AttributeError, s).
Proof.
  intros Hp. unfold _on_vm_required.
  destruct (payload evt); try discriminate; reflexivity.
Qed.

(** The postpone branch of the action handler: with buffer time left, the
    call of [gen_cascade_event] raises once the latency is charged. *)
Lemma _on_action_received_postpone s evt a :
  payload evt = PAction a ->
  Action.assign a = false ->
  _on_action_received evt s =
    if Action.buffer_time a >? 0 then
      (Raise TypeError, postpone_charged a s)
    else
      (Ok evt,
       set_failed_requirements (_failed_requirements s + 1)
         (set_stdout (mismatch_reported (Action.vm_req a) s) s)).
Proof.
  intros Hp Ha. unfold _on_action_received, postpone_charged, mismatch_reported.
  rewrite Hp. run_monad. rewrite Ha.
  destruct (decide (VirtualMachine.id (Action.vm_req a) <> _pending_action_vm_id s));
    cbn; destruct (Action.buffer_time a >? 0); cbn; try reflexivity.
  all: destruct s; reflexivity.
Qed.

(** The assign branch of the action handler: the call of [gen_atom_event]
    raises once the VM is stored. *)
Lemma _on_action_received_assign s evt a :
  payload evt = PAction a ->
  Action.assign a = true ->
  _on_action_received evt s = (Raise TypeError, assign_stored evt a s).
Proof.
  intros Hp Ha. unfold _on_action_received, assign_stored, mismatch_reported.
  rewrite Hp. run_monad. rewrite Ha.
  destruct (decide (VirtualMachine.id (Action.vm_req a) <> _pending_action_vm_id s));
    cbn; try reflexivity.
  all: destruct s; reflexivity.
Qed.

Lemma _on_action_received_bad_payload s evt :
  (forall a, payload evt <> PAction a) ->
  _on_action_received evt s = (Raise AttributeError, s).
Proof.
  intros Hp. unfold _on_action_received.
  destruct (payload evt); try reflexivity. now destruct (Hp a).
Qed.

Lemma valid_pm_list_In machines vm_req c :
  In c (valid_pm_list machines vm_req) <->
  exists pm,
    In pm machines
    /\ PhysicalMachine.cap_cpu pm - PhysicalMachine.req_cpu pm
         >= VirtualMachine.req_cpu vm_req
    /\ c = ValidPm.mk (PhysicalMachine.id pm)
             (PhysicalMachine.cap_cpu pm - PhysicalMachine.req_cpu pm)
             (PhysicalMachine.cap_mem pm - PhysicalMachine.req_mem pm).
Proof.
  unfold valid_pm_list. rewrite in_map_iff. split.
  - intros (pm & <- & Hin). apply filter_In in Hin as [Hin Hge].
    exists pm. repeat split; [assumption |].
    apply Z.geb_le in Hge. lia.
  - intros (pm & Hin & Hge & ->). exists pm. split; [reflexivity |].
    apply filter_In. split; [assumption |]. apply Z.geb_le. lia.
Qed.

Lemma _on_vm_finished_bad_payload s evt :
  (forall p, payload evt <> PFinished p) ->
  _on_vm_finished evt s = (Raise AttributeError, s).
Proof.
  intros Hp. unfold _on_vm_finished.
  destruct (payload evt); try reflexivity. now destruct (Hp p).
Qed.

Lemma _on_vm_finished_no_machine s evt vm_id vm :
  payload evt = PFinished (VmFinishedPayload.mk vm_id) ->
  _vm s !! vm_id = Some vm ->
  py_index (_machines s) (VirtualMachine.pm_id vm) = None ->
  _on_vm_finished evt s = (Raise IndexError, s).
Proof.
  intros Hp Hvm Hi. unfold _on_vm_finished. rewrite Hp. run_monad.
  rewrite Hvm. cbn. now rewrite Hi.
Qed.

Lemma py_index_lookup {A} (l : list A) (z : Z) (i : nat) :
  py_index l z = Some i -> exists x, l !! i = Some x.
Proof.
  intros H. apply py_index_lt in H.
  destruct (l !! i) eqn:E; [eauto |].
  apply lookup_ge_None in E. lia.
Qed.

Lemma _on_vm_finished_no_capacity_state s evt vm_id vm i pm :
  payload evt = PFinished (VmFinishedPayload.mk vm_id) ->
  _vm s !! vm_id = Some vm ->
  py_index (_machines s) (VirtualMachine.pm_id vm) = Some i ->
  _machines s !! i = Some pm ->
  PhysicalMachine.cap_cpu pm = 0 ->
  _on_vm_finished evt s =
    (Raise ZeroDivisionError,
     set_machines (<[i := unreserved vm pm]> (_machines s)) s).
Proof.
  intros Hp Hvm Hi Hpm Hcap. unfold _on_vm_finished. rewrite Hp. run_monad.
  rewrite Hvm. cbn. rewrite Hi. cbn.
  rewrite !list_lookup_alter_eq, Hpm. cbn.
  rewrite Hcap, truediv_by_zero. cbn.
  rewrite !list_alter_alter_eq, (alter_as_insert _ _ _ _ Hpm). reflexivity.
Qed.

(** ** Initialisation *)

Lemma map_seq_lookup {A} (f : nat -> A) (n a j : nat) (x : A) :
  map f (seq a n) !! j = Some x -> x = f (a + j)%nat.
Proof.
  revert a j. induction n as [| n IH]; intros a j H; [discriminate |].
  cbn in H. destruct j as [| j].
  - injection H as <-. f_equal. lia.
  - cbn in H. apply IH in H. subst x. f_equal. lia.
Qed.

Lemma _init_machines_lookup (n cc cm : Z) (j : nat) (pm : PhysicalMachine.t) :
  _init_machines n cc cm !! j = Some pm ->
  pm = PhysicalMachine.init (Z.of_nat j) cc cm.
Proof. unfold _init_machines. intros H. now apply map_seq_lookup in H. Qed.

Lemma sum_values_insert {A} (g : A -> Z) (m : gmap Z A) (k : Z) (v : A) :
  m !! k = None -> sum_values g (<[k := v]> m) = g v + sum_values g m.
Proof.
  intros H. unfold sum_values.
  rewrite map_fold_insert_L; [reflexivity | intros; lia | assumption].
Qed.

(** ** Every outcome of a handler invocation *)

Lemma handle_returned_Ok s i s' :
  returned s i s' -> handle i s = (Ok tt, s').
Proof.
  intros H. destruct H as
    [evt vm_req b Hp Hv | evt vm_req b Hp Hv Hb | evt vm_req b Hp Hv Hb
    | evt vm_id vm i pm Hp Hvm Hi Hpm Hcap
    | evt a Hp Ha Hb]; cbn [handle]; unfold discard, bind.
  - rewrite (_on_vm_required_of s evt vm_req b Hp).
    destruct (valid_pm_list _ _); [contradiction | reflexivity].
  - rewrite (_on_vm_required_of s evt vm_req b Hp), Hv.
    destruct (Z.gtb_spec b 0); [reflexivity | lia].
  - rewrite (_on_vm_required_of s evt vm_req b Hp), Hv.
    destruct (Z.gtb_spec b 0); [lia | reflexivity].
  - exact (_on_vm_finished_live s evt vm_id vm i pm Hp Hvm Hi Hpm Hcap).
  - rewrite (_on_action_received_postpone s evt a Hp Ha).
    destruct (Z.gtb_spec (Action.buffer_time a) 0); [lia | reflexivity].
Qed.

Lemma handle_raised_Raise s i e s' :
  raised s i e s' -> handle i s = (Raise e, s').
Proof.
  intros H. destruct H as
    [evt Hp | evt Hp | evt vm_id Hp Hvm | evt vm_id vm Hp Hvm Hi
    | evt vm_id vm i pm Hp Hvm Hi Hpm Hcap
    | evt Hp | evt a Hp Ha | evt a Hp Ha Hb]; cbn [handle].
  - unfold discard, bind. now rewrite _on_vm_required_bad_payload.
  - now apply _on_vm_finished_bad_payload.
  - now apply (_on_vm_finished_not_live s evt vm_id).
  - now apply (_on_vm_finished_no_machine s evt vm_id vm).
  - now apply (_on_vm_finished_no_capacity_state s evt vm_id vm i pm).
  - unfold discard, bind. now rewrite _on_action_received_bad_payload.
  - unfold discard, bind. now rewrite (_on_action_received_assign s evt a Hp Ha).
  - unfold discard, bind. rewrite (_on_action_received_postpone s evt a Hp Ha).
    destruct (Z.gtb_spec (Action.buffer_time a) 0); [reflexivity | lia].
Qed.

(** Every invocation either returns or raises, in one of the listed ways. *)
Lemma handle_cases s i :
  (exists s', returned s i s') \/ (exists e s', raised s i e s').
Proof.
  destruct i as [evt | evt | evt].
  - destruct (requirement_of (payload evt)) as [[vm_req b] |] eqn:Hp.
    2: { right. exists AttributeError, s. now apply raised_requirement_payload. }
    left. destruct (valid_pm_list (_machines s) vm_req) eqn:Hv.
    + destruct (Z.gtb_spec b 0).
      * eexists. apply (returned_postponed s evt vm_req b); [assumption.. | lia].
      * eexists. now apply (returned_failed s evt vm_req b).
    + eexists. apply (returned_decision s evt vm_req b Hp). rewrite Hv. discriminate.
  - destruct (payload evt) as [| | [vm_id] | |] eqn:Hp;
      try (right; exists AttributeError, s; apply raised_finish_payload;
           intros ?; rewrite Hp; discriminate).
    destruct (_vm s !! vm_id) as [vm |] eqn:Hvm.
    2: { right. exists KeyError, s. now apply (raised_finish_not_live s evt vm_id). }
    destruct (py_index (_machines s) (VirtualMachine.pm_id vm)) as [idx |] eqn:Hi.
    2: { right. exists IndexError, s.
         now apply (raised_finish_no_machine s evt vm_id vm). }
    destruct (py_index_lookup _ _ _ Hi) as [pm Hpm].
    destruct (decide (PhysicalMachine.cap_cpu pm = 0)) as [Hcap | Hcap].
    + right. eexists _, _. now apply (raised_finish_no_capacity s evt vm_id vm idx pm).
    + left. eexists. now apply (returned_finished s evt vm_id vm idx pm).
  - destruct (payload evt) as [| | | | a] eqn:Hp;
      try (right; exists AttributeError, s; apply raised_action_payload;
           intros ?; rewrite Hp; discriminate).
    destruct (Action.assign a) eqn:Ha.
    + right. eexists _, _. now apply (raised_assign s evt a).
    + destruct (Z.gtb_spec (Action.buffer_time a) 0).
      * right. eexists _, _.
        apply (raised_agent_postpone s evt a); [assumption.. | lia].
      * left. eexists. now apply (returned_agent_failed s evt a).
Qed.

Lemma handle_Ok_returned s i u s' :
  handle i s = (Ok u, s') -> returned s i s'.
Proof.
  intros H. destruct (handle_cases s i) as [[s1 Hr] | (e1 & s1 & Hr)].
  - pose proof (handle_returned_Ok _ _ _ Hr) as H1. rewrite H in H1.
    injection H1 as _ <-. exact Hr.
  - apply handle_raised_Raise in Hr. rewrite H in Hr. discriminate.
Qed.

Lemma handle_Raise_raised s i e s' :
  handle i s = (Raise e, s') -> raised s i e s'.
Proof.
  intros H. destruct (handle_cases s i) as [[s1 Hr] | (e1 & s1 & Hr)].
  - apply handle_returned_Ok in Hr. rewrite H in Hr. discriminate.
  - pose proof (handle_raised_Raise _ _ _ _ Hr) as H1. rewrite H in H1.
    injection H1 as <- <-. exact Hr.
Qed.

(** The engine an invocation leaves, by its outcome. *)
Lemma handle_outcome s i :
  returned s i (snd (handle i s))
  \/ exists e, fst (handle i s) = Raise e /\ raised s i e (snd (handle i s)).
Proof.
  destruct (handle i s) as [[u | e] s'] eqn:H; cbn.
  - left. exact (handle_Ok_returned _ _ _ _ H).
  - right. exists e. split; [reflexivity | exact (handle_Raise_raised _ _ _ _ H)].
Qed.

Lemma returning_raised s i e s' : raised s i e s' -> returning s i = false.
Proof.
  intros H. apply handle_raised_Raise in H. unfold returning. now rewrite H.
Qed.

(** ** Runs *)

Lemma run_invariant (P : Engine -> Prop) (ok : Engine -> Input -> bool) :
  (forall s i, P s -> ok s i = true -> P (snd (handle i s))) ->
  forall inputs s s', P s -> run ok inputs s = Some s' -> P s'.
Proof.
  intros Hstep. induction inputs as [| i rest IH]; intros s s' HP Hrun; cbn in Hrun.
  - now injection Hrun as <-.
  - destruct (ok s i) eqn:Hok; [| discriminate].
    eapply IH; [| exact Hrun]. now apply Hstep.
Qed.

Lemma run_weaken (ok ok' : Engine -> Input -> bool) :
  (forall s i, ok s i = true -> ok' s i = true) ->
  forall inputs s s', run ok inputs s = Some s' -> run ok' inputs s = Some s'.
Proof.
  intros Hok. induction inputs as [| i rest IH]; intros s s' Hrun; cbn in Hrun |- *.
  - exact Hrun.
  - destruct (ok s i) eqn:E; [| discriminate].
    rewrite (Hok s i E). now apply IH.
Qed.

(** ** Computations that keep a relation *)

Section Keeps.
Context (R : relation Engine) `{!PreOrder R}.

Lemma keeps_ret {A} (a : A) : keeps R (ret a).
Proof. intros s. reflexivity. Qed.

Lemma keeps_raise {A} (e : exn) : keeps R (raise (A := A) e).
Proof. intros s. reflexivity. Qed.

Lemma keeps_get : keeps R get.
Proof. intros s. reflexivity. Qed.

Lemma keeps_lift_opt {A} (e : exn) (o : option A) : keeps R (lift_opt e o).
Proof. destruct o; [apply keeps_ret | apply keeps_raise]. Qed.

Lemma keeps_truediv (a b : Q) : keeps R (truediv a b).
Proof.
  unfold truediv. destruct (Qeq_bool b 0); [apply keeps_raise | apply keeps_ret].
Qed.

Lemma keeps_modify (f : Engine -> Engine) :
  (forall s, R s (f s)) -> keeps R (modify f).
Proof. intros H s. apply H. Qed.

Lemma keeps_bind {A B} (m : M A) (k : A -> M B) :
  keeps R m -> (forall a, keeps R (k a)) -> keeps R (bind m k).
Proof.
  intros Hm Hk s. unfold bind. pose proof (Hm s) as H1.
  destruct (m s) as [[a | e] s1]; cbn in *; [| exact H1].
  transitivity s1; [exact H1 | apply Hk].
Qed.

End Keeps.

(** Splits a computation into its state changes. *)
Ltac keeps_leaf :=
  first
    [ apply keeps_ret | apply keeps_raise | apply keeps_get
    | apply keeps_lift_opt | apply keeps_truediv ];
  exact _.

Ltac keeps_bind := apply keeps_bind; [exact _ .. | | ].

Ltac keeps_steps :=
  repeat first
    [ keeps_leaf
    | keeps_bind; [| intros ?]
    | match goal with
      | |- keeps _ (if ?b then _ else _) => destruct b
      | |- keeps _ (match ?x with _ => _ end) => destruct x
      end
    | apply keeps_modify; [exact _ .. | intros ?] ].

Ltac unfold_handlers :=
  unfold handle, discard, _on_vm_required, _on_vm_finished, _on_action_received,
    vm_pop, vm_getitem, vm_setitem, insert_event, print, machine_index,
    machine_at, update_machine, call_without_event_type,
    getattr_vm_req, getattr_buffer_time, as_finished, as_action.

#[export] Instance same_machines_preorder : PreOrder same_machines.
Proof.
  split.
  - intros s. split; reflexivity.
  - intros s1 s2 s3 [] []. split; congruence.
Qed.

Lemma fmap_alter_same {A B} (g : A -> B) (f : A -> A) (i : nat) (l : list A) :
  (forall x, g (f x) = g x) -> g <$> alter f i l = g <$> l.
Proof.
  intros H. apply list_eq. intros j. rewrite !list_lookup_fmap.
  destruct (decide (i = j)) as [<- | Hne].
  - rewrite list_lookup_alter_eq. destruct (l !! i); cbn; [now rewrite H | reflexivity].
  - now rewrite list_lookup_alter_ne.
Qed.

(** Every handler invocation keeps the configuration and the identity of
    the machines. *)
Lemma handle_keeps_same_machines (i : Input) : keeps same_machines (handle i).
Proof.
  destruct i as [evt | evt | evt]; cbn [handle].
  - unfold_handlers. keeps_steps; split; reflexivity.
  - unfold_handlers. keeps_steps; split; cbn; try reflexivity;
      apply fmap_alter_same; intros []; reflexivity.
  - unfold_handlers. keeps_steps; split; cbn; try reflexivity;
      apply fmap_alter_same; intros []; reflexivity.
Qed.

Lemma run_keeps (R : relation Engine) `{!PreOrder R} ok :
  (forall i, keeps R (handle i)) ->
  forall inputs s s', run ok inputs s = Some s' -> R s s'.
Proof.
  intros Hc. induction inputs as [| i rest IH]; intros s s' Hrun; cbn in Hrun.
  - injection Hrun as <-. reflexivity.
  - destruct (ok s i); [| discriminate].
    transitivity (snd (handle i s)); [apply Hc | now apply IH].
Qed.

Lemma _init_machines_length (n cc cm : Z) :
  length (_init_machines n cc cm) = Z.to_nat n.
Proof. unfold _init_machines. now rewrite length_map, length_seq. Qed.

(** The machines of an engine that kept those of its initialisation. *)
Lemma same_machines_init c s :
  same_machines (init c) s ->
  length (_machines s) = Z.to_nat (pm_amount c)
  /\ (forall i pm, _machines s !! i = Some pm ->
        PhysicalMachine.id pm = Z.of_nat i
        /\ PhysicalMachine.cap_cpu pm = pm_cap_cpu c
        /\ PhysicalMachine.cap_mem pm = pm_cap_mem c)
  /\ _delay_duration s = delay_duration c
  /\ _energy_consumption s = 0.
Proof.
  intros [Hd _ _ _ He Hid]. cbn in Hd, He, Hid.
  split; [| split; [| split; assumption]].
  - apply (f_equal length) in Hid. rewrite !length_fmap in Hid.
    now rewrite Hid, _init_machines_length.
  - intros i pm Hpm.
    apply (f_equal (fun l => l !! i)) in Hid. rewrite !list_lookup_fmap, Hpm in Hid.
    destruct (_init_machines (pm_amount c) (pm_cap_cpu c) (pm_cap_mem c) !! i)
      as [pm0 |] eqn:E; [| discriminate].
    apply _init_machines_lookup in E. subst pm0.
    cbn in Hid. injection Hid as -> -> ->. repeat split.
Qed.

(** ** Nothing is ever reserved *)

Lemma nothing_reserved_init (c : Config) : nothing_reserved (init c).
Proof.
  split; cbn.
  - intros i pm Hpm. apply _init_machines_lookup in Hpm. subst pm. cbn. lia.
  - intros i pm Hpm. apply _init_machines_lookup in Hpm. subst pm. cbn. lia.
  - intros k vm Hvm. now rewrite lookup_empty in Hvm.
  - intros k vm Hvm. now rewrite lookup_empty in Hvm.
Qed.

Lemma nothing_reserved_handle s i :
  nothing_reserved s ->
  returning_or_nonnegative s i = true ->
  nothing_reserved (snd (handle i s)).
Proof.
  intros [Hcpu Hmem Hlc Hlm] Hok.
  destruct (handle_outcome s i) as [Hr | (e & _ & Hr)].
  - destruct Hr as
      [evt vm_req b Hp Hv | evt vm_req b Hp Hv Hb | evt vm_req b Hp Hv Hb
      | evt vm_id vm j pm Hp Hvm Hj Hpm Hcap
      | evt a Hp Ha Hb]; try (split; cbn; assumption).
    split; cbn.
    + intros k pm' Hk.
      apply list_lookup_insert_Some in Hk as [(<- & <- & _) | [_ Hk]]; [| eauto].
      cbn. specialize (Hcpu j pm Hpm). specialize (Hlc vm_id vm Hvm). lia.
    + intros k pm' Hk.
      apply list_lookup_insert_Some in Hk as [(<- & <- & _) | [_ Hk]]; [| eauto].
      cbn. specialize (Hmem j pm Hpm). specialize (Hlm vm_id vm Hvm). lia.
    + intros k vm' Hk. apply lookup_delete_Some in Hk as [_ Hk]. eauto.
    + intros k vm' Hk. apply lookup_delete_Some in Hk as [_ Hk]. eauto.
  - pose proof (returning_raised _ _ _ _ Hr) as Hret.
    unfold returning_or_nonnegative in Hok. rewrite Hret in Hok. cbn in Hok.
    destruct Hr as
      [evt Hp | evt Hp | evt vm_id Hp Hvm | evt vm_id vm Hp Hvm Hi
      | evt vm_id vm j pm Hp Hvm Hj Hpm Hcap
      | evt Hp | evt a Hp Ha | evt a Hp Ha Hb]; try (split; cbn; assumption).
    + split; cbn; [| | assumption..].
      * intros k pm' Hk.
        apply list_lookup_insert_Some in Hk as [(<- & <- & _) | [_ Hk]]; [| eauto].
        cbn. specialize (Hcpu j pm Hpm). specialize (Hlc vm_id vm Hvm). lia.
      * intros k pm' Hk.
        apply list_lookup_insert_Some in Hk as [(<- & <- & _) | [_ Hk]]; [| eauto].
        cbn. specialize (Hmem j pm Hpm). specialize (Hlm vm_id vm Hvm). lia.
    + unfold nonnegative_requests in Hok. cbn in Hok. rewrite Hp, Ha in Hok.
      apply andb_true_iff in Hok as [Hc Hm].
      apply Z.leb_le in Hc. apply Z.leb_le in Hm.
      split; cbn; [assumption.. | |].
      * intros k vm' Hk.
        apply lookup_insert_Some in Hk as [[_ <-] | [_ Hk]]; [exact Hc | eauto].
      * intros k vm' Hk.
        apply lookup_insert_Some in Hk as [[_ <-] | [_ Hk]]; [exact Hm | eauto].
Qed.

(** ** Properties of the finish handler *)

(** C5.  A finish event that names a live VM hosted on the machine [pm]
    (the one [self._machines[vm.pm_id]] reads, at position [i], whose
    [vm_set] holds the id) subtracts the VM's [req_cpu] and [req_mem] from
    the machine's reserved totals, sets its [util_cpu] to
    [(cap_cpu * old_util - vm_req_cpu * vm_util) / cap_cpu], removes the id
    from its [vm_set], removes the VM from the live table and adds one to
    [_successful_requirements]. *)
Theorem finish_releases_hosting_machine s evt vm_id vm i pm :
  payload evt = PFinished (VmFinishedPayload.mk vm_id) ->
  _vm s !! vm_id = Some vm ->
  py_index (_machines s) (VirtualMachine.pm_id vm) = Some i ->
  _machines s !! i = Some pm ->
  vm_id ∈ PhysicalMachine.vm_set pm ->
  PhysicalMachine.cap_cpu pm <> 0 ->
  exists s' pm',
    _on_vm_finished evt s = (Ok tt, s')
    /\ _machines s' = <[i := pm']> (_machines s)
    /\ PhysicalMachine.req_cpu pm'
         = PhysicalMachine.req_cpu pm - VirtualMachine.req_cpu vm
    /\ PhysicalMachine.req_mem pm'
         = PhysicalMachine.req_mem pm - VirtualMachine.req_mem vm
    /\ PhysicalMachine.util_cpu pm'
         = ((inject_Z (PhysicalMachine.cap_cpu pm) * PhysicalMachine.util_cpu pm
             - inject_Z (VirtualMachine.req_cpu vm) * VirtualMachine.util_cpu vm)
            / inject_Z (PhysicalMachine.cap_cpu pm))%Q
    /\ PhysicalMachine.vm_set pm' = PhysicalMachine.vm_set pm ∖ {[vm_id]}
    /\ (vm_id ∉ PhysicalMachine.vm_set pm')
    /\ PhysicalMachine.id pm' = PhysicalMachine.id pm
    /\ PhysicalMachine.cap_cpu pm' = PhysicalMachine.cap_cpu pm
    /\ PhysicalMachine.cap_mem pm' = PhysicalMachine.cap_mem pm
    /\ _vm s' = delete vm_id (_vm s)
    /\ _vm s' !! vm_id = None
    /\ _successful_requirements s' = _successful_requirements s + 1
    /\ _failed_requirements s' = _failed_requirements s
    /\ _event_buffer s' = _event_buffer s.
Proof.
  intros Hp Hvm Hi Hpm Hin Hcap.
  eexists _, (released vm_id vm pm).
  split; [exact (_on_vm_finished_live s evt vm_id vm i pm Hp Hvm Hi Hpm Hcap) |].
  cbn. repeat split.
  - rewrite elem_of_difference, elem_of_singleton. intros [_ H]. now apply H.
  - apply lookup_delete_eq.
Qed.


(** ** Properties of the action handler *)

(** C1.  An assigning action sets the VM's [pm_id], [start_tick] and
    [end_tick], recomputes its [util_cpu] from the curve at the current
    tick and stores the VM in the live table.  The call of [gen_atom_event]
    that follows passes no [event_type] and raises [TypeError]: no finish
    event is inserted, and the target machine keeps its [vm_set], its
    reserved totals and its [util_cpu]. *)
Theorem assign_stores_vm_then_raises s evt a :
  payload evt = PAction a ->
  Action.assign a = true ->
  exists s' vm',
    _on_action_received evt s = (Raise TypeError, s')
    /\ VirtualMachine.pm_id vm' = Action.pm_id a
    /\ VirtualMachine.start_tick vm' = tick evt
    /\ VirtualMachine.end_tick vm'
         = VirtualMachine.start_tick vm' + VirtualMachine.lifetime (Action.vm_req a)
    /\ VirtualMachine.util_cpu vm' = VirtualMachine.get_util vm' (tick evt)
    /\ VirtualMachine.id vm' = VirtualMachine.id (Action.vm_req a)
    /\ VirtualMachine.req_cpu vm' = VirtualMachine.req_cpu (Action.vm_req a)
    /\ VirtualMachine.req_mem vm' = VirtualMachine.req_mem (Action.vm_req a)
    /\ _vm s' = <[VirtualMachine.id vm' := vm']> (_vm s)
    /\ _event_buffer s' = _event_buffer s
    /\ _machines s' = _machines s
    /\ _successful_requirements s' = _successful_requirements s
    /\ _failed_requirements s' = _failed_requirements s
    /\ _total_latency s' = _total_latency s.
Proof.
  intros Hp Ha.
  eexists _, (placed a (tick evt)).
  split; [exact (_on_action_received_assign s evt a Hp Ha) |].
  cbn. repeat split.
Qed.

(** C4.  A postponing action with buffer time left adds [delay_duration]
    to [latency_due_to_agent]; the call of [gen_cascade_event] that follows
    passes no [event_type] and raises [TypeError], so that no requirement
    event is inserted.  With no buffer time left the action adds one to
    [_failed_requirements], inserts nothing and returns. *)
Theorem postpone_charges_latency_then_raises s evt a :
  payload evt = PAction a ->
  Action.assign a = false ->
  (Action.buffer_time a > 0 ->
   exists s',
     _on_action_received evt s = (Raise TypeError, s')
     /\ Latency.latency_due_to_agent (_total_latency s')
          = Latency.latency_due_to_agent (_total_latency s) + _delay_duration s
     /\ Latency.latency_due_to_resource (_total_latency s')
          = Latency.latency_due_to_resource (_total_latency s)
     /\ _event_buffer s' = _event_buffer s
     /\ _failed_requirements s' = _failed_requirements s
     /\ _vm s' = _vm s
     /\ _machines s' = _machines s)
  /\ (Action.buffer_time a <= 0 ->
      exists s',
        _on_action_received evt s = (Ok evt, s')
        /\ _failed_requirements s' = _failed_requirements s + 1
        /\ _event_buffer s' = _event_buffer s
        /\ _total_latency s' = _total_latency s).
Proof.
  intros Hp Ha.
  pose proof (_on_action_received_postpone s evt a Hp Ha) as H.
  split; intros Hb.
  - destruct (Z.gtb_spec (Action.buffer_time a) 0) as [_ | Hn]; [| lia].
    eexists. split; [exact H |]. cbn. repeat split.
  - destruct (Z.gtb_spec (Action.buffer_time a) 0) as [Hn | _]; [lia |].
    eexists. split; [exact H |]. cbn. repeat split.
Qed.

(** ** Properties of the requirement handler *)

(** C3.  With no candidate and buffer time left, the requirement handler
    takes [delay_duration] off the payload's buffer time, adds it to
    [latency_due_to_resource] and inserts a requirement event for
    [tick + delay_duration] with the same VM descriptor and the decremented
    buffer time; with no buffer time left it adds one to
    [_failed_requirements] and inserts nothing. *)
Theorem no_candidate_postpones_or_fails s evt p :
  payload evt = PRequirement p ->
  valid_pm_list (_machines s) (VmRequirementPayload.vm_req p) = [] ->
  (VmRequirementPayload.buffer_time p > 0 ->
   exists evt' s' postpone_event,
     _on_vm_required evt s = (Ok evt', s')
     /\ payload evt'
          = PRequirement
              (VmRequirementPayload.mk (VmRequirementPayload.vm_req p)
                 (VmRequirementPayload.buffer_time p - _delay_duration s))
     /\ Latency.latency_due_to_resource (_total_latency s')
          = Latency.latency_due_to_resource (_total_latency s) + _delay_duration s
     /\ Latency.latency_due_to_agent (_total_latency s')
          = Latency.latency_due_to_agent (_total_latency s)
     /\ _event_buffer s' = _event_buffer s ++ [postpone_event]
     /\ tick postpone_event = tick evt + _delay_duration s
     /\ event_type postpone_event = Some REQUIREMENTS
     /\ payload postpone_event = payload evt'
     /\ deliver postpone_event = Some (discard (_on_vm_required postpone_event))
     /\ _failed_requirements s' = _failed_requirements s)
  /\ (VmRequirementPayload.buffer_time p <= 0 ->
      exists s',
        _on_vm_required evt s = (Ok evt, s')
        /\ _failed_requirements s' = _failed_requirements s + 1
        /\ _event_buffer s' = _event_buffer s
        /\ _total_latency s' = _total_latency s
        /\ _machines s' = _machines s
        /\ _vm s' = _vm s).
Proof.
  intros Hp Hnone.
  pose proof (_on_vm_required_eq s evt p Hp) as H. cbn zeta in H.
  rewrite Hnone in H.
  split; intros Hb.
  - destruct (Z.gtb_spec (VmRequirementPayload.buffer_time p) 0) as [_ | Hn]; [| lia].
    eexists _, _, _. split; [exact H |]. cbn. repeat split.
  - destruct (Z.gtb_spec (VmRequirementPayload.buffer_time p) 0) as [Hn | _]; [lia |].
    eexists. split; [exact H |]. cbn. repeat split.
Qed.

(** C2.  The candidate list holds one record, with the free CPU and the
    free memory, for each machine with [cap_cpu - req_cpu >= req_cpu(vm)]
    and for no other; the handler hands this list to the decision event;
    the list does not depend on the memory the VM asks for, and a machine
    with less free memory than the VM asks for can be a candidate. *)
Theorem candidates_filtered_on_cpu_only :
  (forall machines vm_req c,
     In c (valid_pm_list machines vm_req) <->
     exists pm,
       In pm machines
       /\ PhysicalMachine.cap_cpu pm - PhysicalMachine.req_cpu pm
            >= VirtualMachine.req_cpu vm_req
       /\ c = ValidPm.mk (PhysicalMachine.id pm)
                (PhysicalMachine.cap_cpu pm - PhysicalMachine.req_cpu pm)
                (PhysicalMachine.cap_mem pm - PhysicalMachine.req_mem pm))
  /\ (forall s tk ty p imm,
        match valid_pm_list (_machines s) (VmRequirementPayload.vm_req p) with
        | [] => True
        | l =>
            _on_vm_required (mkEvent tk ty (PRequirement p) imm) s
            = (Ok (mkEvent tk ty (PRequirement p)
                     (imm ++ [mkEvent tk (Some PENDING_DECISION)
                                (PDecision
                                   (DecisionPayload.mk l
                                      (VmRequirementPayload.vm_req p)
                                      (VmRequirementPayload.buffer_time p)))
                                []])),
               set_pending_action_vm_id
                 (VirtualMachine.id (VmRequirementPayload.vm_req p)) s)
        end)
  /\ (forall machines vm_req req_mem',
        valid_pm_list machines vm_req
        = valid_pm_list machines
            (VirtualMachine.mk (VirtualMachine.id vm_req)
               (VirtualMachine.req_cpu vm_req) req_mem'
               (VirtualMachine.lifetime vm_req) (VirtualMachine.pm_id vm_req)
               (VirtualMachine.util_cpu vm_req) (VirtualMachine.start_tick vm_req)
               (VirtualMachine.end_tick vm_req)
               (VirtualMachine.cpu_utilization vm_req)))
  /\ (exists pm vm_req,
        In (ValidPm.mk (PhysicalMachine.id pm)
              (PhysicalMachine.cap_cpu pm - PhysicalMachine.req_cpu pm)
              (PhysicalMachine.cap_mem pm - PhysicalMachine.req_mem pm))
           (valid_pm_list [pm] vm_req)
        /\ PhysicalMachine.cap_mem pm - PhysicalMachine.req_mem pm
             < VirtualMachine.req_mem vm_req).
Proof.
  split; [| split; [| split]].
  - intros machines vm_req c. unfold valid_pm_list.
    rewrite in_map_iff. split.
    + intros (pm & <- & Hin). apply filter_In in Hin as [Hin Hge].
      exists pm. repeat split; [assumption |].
      apply Z.geb_le in Hge. lia.
    + intros (pm & Hin & Hge & ->). exists pm. split; [reflexivity |].
      apply filter_In. split; [assumption |]. apply Z.geb_le. lia.
  - intros s tk ty p imm.
    pose proof (_on_vm_required_eq s (mkEvent tk ty (PRequirement p) imm) p eq_refl) as H.
    cbn zeta in H.
    destruct (valid_pm_list (_machines s) (VmRequirementPayload.vm_req p));
      [exact I | exact H].
  - reflexivity.
  - exists (PhysicalMachine.mk 0 100 10 0 0 0%Q ∅),
           (VirtualMachine.mk 1 10 20 5 (-1) 0%Q 0 0 (fun _ => 0%Q)).
    cbn. split; [left; reflexivity | lia].
Qed.

(** ** A mismatched action *)

(** C8.  An action whose VM id is not the pending one is reported on the
    output, the pending id stays, and the action is then handled exactly as
    in the engine where its VM is the pending one.  That is: an assignment
    stores the VM and raises [TypeError] at [gen_atom_event], a
    postponement with buffer time left charges the latency and raises
    [TypeError] at [gen_cascade_event], and only a postponement with no
    buffer time left, which counts a failure, returns. *)
Theorem mismatched_action_is_reported_then_handled s evt a :
  payload evt = PAction a ->
  VirtualMachine.id (Action.vm_req a) <> _pending_action_vm_id s ->
  let expected :=
    _on_action_received evt
      (set_pending_action_vm_id (VirtualMachine.id (Action.vm_req a)) s) in
  let result := _on_action_received evt s in
  stdout (snd result) = stdout s ++ ["The VM id sent by agent is invalid."%string]
  /\ _pending_action_vm_id (snd result) = _pending_action_vm_id s
  /\ fst result = fst expected
  /\ snd result
       = set_pending_action_vm_id (_pending_action_vm_id s)
           (set_stdout
              (stdout s ++ ["The VM id sent by agent is invalid."%string])
              (snd expected))
  /\ stdout (snd expected) = stdout s
  /\ (Action.assign a = true ->
      fst result = Raise TypeError
      /\ _vm (snd result)
         = <[VirtualMachine.id (Action.vm_req a) := placed a (tick evt)]> (_vm s)
      /\ _machines (snd result) = _machines s
      /\ _event_buffer (snd result) = _event_buffer s)
  /\ (Action.assign a = false -> Action.buffer_time a > 0 ->
      fst result = Raise TypeError
      /\ Latency.latency_due_to_agent (_total_latency (snd result))
         = Latency.latency_due_to_agent (_total_latency s) + _delay_duration s
      /\ _vm (snd result) = _vm s
      /\ _event_buffer (snd result) = _event_buffer s)
  /\ (Action.assign a = false -> Action.buffer_time a <= 0 ->
      fst result = Ok evt
      /\ _failed_requirements (snd result) = _failed_requirements s + 1
      /\ _vm (snd result) = _vm s
      /\ _event_buffer (snd result) = _event_buffer s).
Proof.
  intros Hp Hne expected result. subst expected result.
  set (s0 := set_pending_action_vm_id (VirtualMachine.id (Action.vm_req a)) s).
  assert (Hrep : mismatch_reported (Action.vm_req a) s
                 = stdout s ++ ["The VM id sent by agent is invalid."%string]).
  { unfold mismatch_reported. now destruct (decide _). }
  assert (Hrep0 : mismatch_reported (Action.vm_req a) s0 = stdout s).
  { unfold mismatch_reported. cbn. now destruct (decide _). }
  destruct (Action.assign a) eqn:Ha.
  - rewrite (_on_action_received_assign s evt a Hp Ha),
      (_on_action_received_assign s0 evt a Hp Ha).
    unfold assign_stored. rewrite Hrep, Hrep0. cbn.
    repeat split; discriminate.
  - rewrite (_on_action_received_postpone s evt a Hp Ha),
      (_on_action_received_postpone s0 evt a Hp Ha).
    unfold postpone_charged. rewrite Hrep, Hrep0. cbn.
    destruct (Z.gtb_spec (Action.buffer_time a) 0); cbn;
      repeat split; try discriminate; lia.
Qed.

(** ** The postponement chain *)

Lemma ceil_div_step (b d : Z) :
  d > 0 -> ceil_div (b - d) d = ceil_div b d - 1.
Proof.
  intros Hd. unfold ceil_div.
  replace (b - d + d - 1) with (b + d - 1 + (-1) * d) by lia.
  rewrite Z.div_add by lia. lia.
Qed.

Lemma ceil_div_pos (b d : Z) : d > 0 -> b > 0 -> 1 <= ceil_div b d.
Proof.
  intros Hd Hb. unfold ceil_div.
  apply Z.div_le_lower_bound; lia.
Qed.

Lemma ceil_div_nonpos (b d : Z) : d > 0 -> b <= 0 -> ceil_div b d <= 0.
Proof.
  intros Hd Hb. unfold ceil_div.
  assert (H : (b + d - 1) / d < 1); [| lia].
  apply Z.div_lt_upper_bound; lia.
Qed.

(** [ceil_div] is the ceiling of the quotient. *)
Lemma ceil_div_spec (b d : Z) :
  d > 0 -> d * (ceil_div b d - 1) < b <= d * ceil_div b d.
Proof.
  intros Hd. unfold ceil_div.
  pose proof (Z.div_mod (b + d - 1) d ltac:(lia)) as Hdm.
  pose proof (Z.mod_pos_bound (b + d - 1) d ltac:(lia)) as Hm.
  lia.
Qed.

Lemma ceil_div_exceeds (b d : Z) :
  d > 0 -> b mod d <> 0 -> b < d * ceil_div b d.
Proof.
  intros Hd Hnd.
  pose proof (ceil_div_spec b d Hd) as [_ Hle].
  destruct (Z.eq_dec b (d * ceil_div b d)) as [Heq | Hne]; [| lia].
  exfalso. apply Hnd. rewrite Heq, Z.mul_comm. apply Z.mod_mul. lia.
Qed.

Lemma inserted_since_one (s s' : Engine) (e : Event) :
  _event_buffer s' = _event_buffer s ++ [e] -> inserted_since s s' = [e].
Proof.
  intros H. unfold inserted_since. rewrite H, drop_app_length. reflexivity.
Qed.

Lemma inserted_since_none (s s' : Engine) :
  _event_buffer s' = _event_buffer s -> inserted_since s s' = [].
Proof.
  intros H. unfold inserted_since. rewrite H. apply drop_all.
Qed.

(** The chain of a requirement that finds no candidate, for a buffer time of
    either sign. *)
Lemma postpone_chain_no_candidate (fuel : nat) :
  forall s evt p,
    payload evt = PRequirement p ->
    valid_pm_list (_machines s) (VmRequirementPayload.vm_req p) = [] ->
    _delay_duration s > 0 ->
    (Z.to_nat (ceil_div (VmRequirementPayload.buffer_time p) (_delay_duration s))
     < fuel)%nat ->
    exists s',
      postpone_chain fuel evt s
      = Some (Z.to_nat (ceil_div (VmRequirementPayload.buffer_time p)
                          (_delay_duration s)), s')
      /\ _failed_requirements s' = _failed_requirements s + 1
      /\ Latency.latency_due_to_resource (_total_latency s')
           = Latency.latency_due_to_resource (_total_latency s)
             + _delay_duration s
               * Z.of_nat (Z.to_nat (ceil_div (VmRequirementPayload.buffer_time p)
                                       (_delay_duration s)))
      /\ length (_event_buffer s')
           = (length (_event_buffer s)
              + Z.to_nat (ceil_div (VmRequirementPayload.buffer_time p)
                            (_delay_duration s)))%nat
      /\ _machines s' = _machines s
      /\ _vm s' = _vm s
      /\ _successful_requirements s' = _successful_requirements s.
Proof.
  induction fuel as [| fuel IH]; intros s evt p Hp Hnone Hd Hfuel; [lia |].
  set (b := VmRequirementPayload.buffer_time p) in *.
  set (d := _delay_duration s) in *.
  pose proof (_on_vm_required_eq s evt p Hp) as Hrun. cbn zeta in Hrun.
  rewrite Hnone in Hrun. fold b d in Hrun.
  cbn [postpone_chain]. rewrite Hrun.
  destruct (Z.gtb_spec b 0) as [Hb | Hb].
  - (* postponed: the inserted event is delivered next *)
    pose proof (ceil_div_pos b d Hd ltac:(lia)) as Hpos.
    pose proof (ceil_div_step b d Hd) as Hstep.
    erewrite inserted_since_one by reflexivity.
    match goal with
    | |- context [postpone_chain fuel ?e ?s1] =>
        destruct (IH s1 e (VmRequirementPayload.mk (VmRequirementPayload.vm_req p) (b - d)))
          as (s' & Hchain & Hfail & Hlat & Hlen & Hm & Hv & Hs)
    end.
    + reflexivity.
    + exact Hnone.
    + exact Hd.
    + cbn. fold d. rewrite Hstep. lia.
    + exists s'. rewrite Hchain.
      cbn in Hfail, Hlat, Hlen, Hm, Hv, Hs |- *. fold d in Hlat, Hlen |- *.
      rewrite Hstep in Hlat, Hlen |- *.
      replace (Z.to_nat (ceil_div b d)) with (S (Z.to_nat (ceil_div b d - 1))) by lia.
      repeat split; try assumption.
      * rewrite Hlat. lia.
      * rewrite Hlen, length_app. cbn. lia.
  - (* failed: nothing is inserted *)
    pose proof (ceil_div_nonpos b d Hd Hb) as Hnp.
    rewrite inserted_since_none by reflexivity.
    replace (Z.to_nat (ceil_div b d)) with O by lia.
    eexists. split; [reflexivity |]. cbn. repeat split; lia.
Qed.

(** C10.  A requirement that finds no candidate, with a delay
    [d > 0] and a buffer time [B >= 0], is re-emitted [ceil (B / d)] times
    and then fails once: with any fuel above that number the chain ends,
    [_failed_requirements] has grown by one and [latency_due_to_resource]
    by [d * ceil (B / d)], which is at least [B] and more than [B] when [d]
    does not divide [B]. *)
Theorem postponement_chain_terminates s evt p fuel :
  payload evt = PRequirement p ->
  valid_pm_list (_machines s) (VmRequirementPayload.vm_req p) = [] ->
  _delay_duration s > 0 ->
  VmRequirementPayload.buffer_time p >= 0 ->
  (Z.to_nat (ceil_div (VmRequirementPayload.buffer_time p) (_delay_duration s))
   < fuel)%nat ->
  let d := _delay_duration s in
  let B := VmRequirementPayload.buffer_time p in
  exists s',
    postpone_chain fuel evt s = Some (Z.to_nat (ceil_div B d), s')
    /\ 0 <= ceil_div B d
    /\ d * (ceil_div B d - 1) < B <= d * ceil_div B d
    /\ _failed_requirements s' = _failed_requirements s + 1
    /\ Latency.latency_due_to_resource (_total_latency s')
         = Latency.latency_due_to_resource (_total_latency s) + d * ceil_div B d
    /\ length (_event_buffer s')
         = (length (_event_buffer s) + Z.to_nat (ceil_div B d))%nat
    /\ (B mod d <> 0 -> B < d * ceil_div B d).
Proof.
  intros Hp Hnone Hd HB Hfuel d B.
  destruct (postpone_chain_no_candidate fuel s evt p Hp Hnone Hd Hfuel)
    as (s' & Hchain & Hfail & Hlat & Hlen & _).
  fold d B in Hchain, Hlat, Hlen.
  pose proof (ceil_div_spec B d Hd) as Hspec.
  assert (Hn : 0 <= ceil_div B d).
  { unfold ceil_div. apply Z.div_pos; lia. }
  rewrite Z2Nat.id in Hlat by assumption.
  exists s'.
  split; [exact Hchain |]. split; [exact Hn |]. split; [exact Hspec |].
  split; [exact Hfail |]. split; [exact Hlat |]. split; [exact Hlen |].
  now apply ceil_div_exceeds.
Qed.

(** ** The invariants of the spec in the runs of the handlers *)

Lemma run_nothing_reserved c inputs s :
  run returning_or_nonnegative inputs (init c) = Some s -> nothing_reserved s.
Proof.
  intros Hrun.
  exact (run_invariant nothing_reserved returning_or_nonnegative
           nothing_reserved_handle inputs (init c) s (nothing_reserved_init c) Hrun).
Qed.

(** C6.  When the configured capacities are not negative, every machine of
    every state reached by handler invocations from initialisation has
    [req_cpu <= cap_cpu] and [req_mem <= cap_mem]: in the runs in which
    every invocation returns, and in the runs that go on after an
    invocation has raised, provided no assigned VM asks for a negative
    amount.  No machine ever has a positive amount reserved: an assignment
    raises before it reaches its machine, and a finish event subtracts. *)
Theorem capacity_respected c s pm :
  0 <= pm_cap_cpu c ->
  0 <= pm_cap_mem c ->
  reachable returning c s \/ reachable nonnegative_requests c s ->
  In pm (_machines s) ->
  PhysicalMachine.req_cpu pm <= PhysicalMachine.cap_cpu pm
  /\ PhysicalMachine.req_mem pm <= PhysicalMachine.cap_mem pm
  /\ PhysicalMachine.req_cpu pm <= 0
  /\ PhysicalMachine.req_mem pm <= 0
  /\ PhysicalMachine.cap_cpu pm = pm_cap_cpu c
  /\ PhysicalMachine.cap_mem pm = pm_cap_mem c.
Proof.
  intros Hcc Hcm Hreach Hin.
  assert (Hrun : exists inputs,
            run returning_or_nonnegative inputs (init c) = Some s).
  { destruct Hreach as [[inputs H] | [inputs H]]; exists inputs;
      revert H; apply run_weaken; intros s0 i0 H0;
      unfold returning_or_nonnegative; rewrite H0;
      [reflexivity | apply orb_true_r]. }
  destruct Hrun as [inputs Hrun].
  pose proof (run_nothing_reserved c inputs s Hrun) as [Hcpu Hmem _ _].
  pose proof (run_keeps same_machines returning_or_nonnegative
                handle_keeps_same_machines inputs (init c) s Hrun) as Hsame.
  destruct (same_machines_init c s Hsame) as (_ & Hm & _).
  apply list_elem_of_In, list_elem_of_lookup in Hin as [j Hj].
  destruct (Hm j pm Hj) as (_ & Hc1 & Hc2).
  specialize (Hcpu j pm Hj). specialize (Hmem j pm Hj).
  repeat split; lia.
Qed.

(** C7.  An assigning action for a VM that is not live leaves the VM in
    the live table and raises before any machine is touched: the VM's
    [req_cpu] and [req_mem] are in the totals over the live VMs and in no
    machine's reserved totals, and no machine's [vm_set] has gained its id.
    Where the totals agreed and the VM asks for CPU, they no longer
    agree. *)
Theorem stored_vm_is_reserved_on_no_machine s evt a :
  payload evt = PAction a ->
  Action.assign a = true ->
  _vm s !! VirtualMachine.id (Action.vm_req a) = None ->
  exists s',
    _on_action_received evt s = (Raise TypeError, s')
    /\ _vm s' !! VirtualMachine.id (Action.vm_req a) = Some (placed a (tick evt))
    /\ _machines s' = _machines s
    /\ live_total VirtualMachine.req_cpu (_vm s')
       = VirtualMachine.req_cpu (Action.vm_req a)
         + live_total VirtualMachine.req_cpu (_vm s)
    /\ live_total VirtualMachine.req_mem (_vm s')
       = VirtualMachine.req_mem (Action.vm_req a)
         + live_total VirtualMachine.req_mem (_vm s)
    /\ sum_over PhysicalMachine.req_cpu (_machines s')
       = sum_over PhysicalMachine.req_cpu (_machines s)
    /\ sum_over PhysicalMachine.req_mem (_machines s')
       = sum_over PhysicalMachine.req_mem (_machines s)
    /\ (sum_over PhysicalMachine.req_cpu (_machines s)
        = live_total VirtualMachine.req_cpu (_vm s) ->
        VirtualMachine.req_cpu (Action.vm_req a) <> 0 ->
        sum_over PhysicalMachine.req_cpu (_machines s')
        <> live_total VirtualMachine.req_cpu (_vm s')).
Proof.
  intros Hp Ha Hfresh. eexists.
  split; [exact (_on_action_received_assign s evt a Hp Ha) |].
  unfold live_total. cbn.
  rewrite !sum_values_insert by exact Hfresh. cbn.
  split; [apply lookup_insert_eq |].
  repeat split. intros Heq Hne. unfold sum_over in *. lia.
Qed.

(** ** The tick as a computation that keeps relations *)

Lemma update_pm_util_at_keeps (R : relation Engine) `{!PreOrder R} positions :
  (forall s i q,
     R s (set_machines (alter (PhysicalMachine.set_util_cpu q) i (_machines s)) s)) ->
  keeps R (update_pm_util_at positions).
Proof.
  intros Hupd. induction positions as [| i rest IH]; cbn [update_pm_util_at].
  - keeps_leaf.
  - unfold machine_at, update_machine.
    keeps_bind; [keeps_steps | intros pm].
    keeps_bind.
    { generalize 0%Q. induction (elements (PhysicalMachine.vm_set pm)) as [| k ks IHk];
        intros total; cbn [total_util_cpu_over]; [keeps_leaf |].
      unfold vm_getitem. keeps_bind; [keeps_steps | intros vm]. apply IHk. }
    intros total. keeps_bind; [keeps_leaf | intros q].
    keeps_bind; [apply keeps_modify; intros s; apply Hupd | intros _].
    keeps_bind; [keeps_leaf | intros s].
    keeps_bind; [apply IH | intros series]. keeps_leaf.
Qed.

Lemma step_keeps (R : relation Engine) `{!PreOrder R} tick :
  (forall s, R s (set_tick tick s)) ->
  (forall s t,
     R s (set_vm
            ((fun vm =>
                VirtualMachine.set_util_cpu (VirtualMachine.get_util vm t) vm)
               <$> _vm s) s)) ->
  (forall s i q,
     R s (set_machines (alter (PhysicalMachine.set_util_cpu q) i (_machines s)) s)) ->
  (forall s e, R s (set_event_buffer (_event_buffer s ++ [e]) s)) ->
  keeps R (step tick).
Proof.
  intros Htick Hvm Hpm Hbuf. unfold step, _update_vm_util, _update_pm_util, insert_event.
  keeps_bind; [apply keeps_modify; exact Htick | intros _].
  keeps_bind; [intros s; apply Hvm | intros _].
  keeps_bind.
  { keeps_bind; [keeps_leaf | intros s]. now apply update_pm_util_at_keeps. }
  intros series. keeps_bind; [apply keeps_modify; intros s; apply Hbuf | intros _].
  keeps_leaf.
Qed.

(** Every call keeps the configuration and the identity of the machines. *)
Lemma call_keeps_same_machines (c : Call) : keeps same_machines (call c).
Proof.
  destruct c as [i | tick]; cbn [call].
  - apply handle_keeps_same_machines.
  - unfold discard. keeps_bind; [| intros ?; keeps_leaf].
    apply step_keeps; [exact _ | ..]; intros; split; cbn; try reflexivity.
    apply fmap_alter_same. intros []; reflexivity.
Qed.

Lemma run_calls_keeps (R : relation Engine) `{!PreOrder R} ok :
  (forall c, keeps R (call c)) ->
  forall calls s s', run_calls ok calls s = Some s' -> R s s'.
Proof.
  intros Hc. induction calls as [| c rest IH]; intros s s' Hrun; cbn in Hrun.
  - injection Hrun as <-. reflexivity.
  - destruct (call_ok ok s c); [| discriminate].
    transitivity (snd (call c s)); [apply Hc | now apply IH].
Qed.

Lemma run_calls_invariant (P : Engine -> Prop) ok :
  (forall s c, P s -> call_ok ok s c = true -> P (snd (call c s))) ->
  forall calls s s', P s -> run_calls ok calls s = Some s' -> P s'.
Proof.
  intros Hstep. induction calls as [| c rest IH]; intros s s' HP Hrun; cbn in Hrun.
  - now injection Hrun as <-.
  - destruct (call_ok ok s c) eqn:Hok; [| discriminate].
    eapply IH; [| exact Hrun]. now apply Hstep.
Qed.

(** ** The machines of a run *)

Lemma run_calls_machines ok c calls s :
  run_calls ok calls (init c) = Some s ->
  length (_machines s) = Z.to_nat (pm_amount c)
  /\ (forall i pm, _machines s !! i = Some pm ->
        PhysicalMachine.id pm = Z.of_nat i
        /\ PhysicalMachine.cap_cpu pm = pm_cap_cpu c
        /\ PhysicalMachine.cap_mem pm = pm_cap_mem c)
  /\ _delay_duration s = delay_duration c
  /\ _energy_consumption s = 0.
Proof.
  intros Hrun. apply same_machines_init.
  exact (run_calls_keeps same_machines ok call_keeps_same_machines
           calls (init c) s Hrun).
Qed.

(** X1.  Whatever the calls of a run (handler invocations and ticks, any
    guard) and whether they return or raise, the engine keeps the machines
    it was initialised with: as many as [pm_amount] says (none when it is
    negative), the machine at position [i] with id [i] and the configured
    capacities; the delay and the energy consumption are never written. *)
Theorem machines_are_never_replaced ok c s :
  reachable_with_ticks ok c s ->
  length (_machines s) = Z.to_nat (pm_amount c)
  /\ (forall i pm, _machines s !! i = Some pm ->
        PhysicalMachine.id pm = Z.of_nat i
        /\ PhysicalMachine.cap_cpu pm = pm_cap_cpu c
        /\ PhysicalMachine.cap_mem pm = pm_cap_mem c)
  /\ _delay_duration s = delay_duration c
  /\ _energy_consumption s = 0.
Proof. intros [calls Hrun]. exact (run_calls_machines ok c calls s Hrun). Qed.

(** ** The tick keeps the reservations *)

#[export] Instance same_reservations_preorder : PreOrder same_reservations.
Proof.
  split.
  - intros s. split; reflexivity.
  - intros s1 s2 s3 [] []. split; congruence.
Qed.

Lemma without_util_refreshed (m : gmap Z VirtualMachine.t) (t : Z) :
  without_util
    <$> ((fun vm =>
            VirtualMachine.set_util_cpu (VirtualMachine.get_util vm t) vm) <$> m)
  = without_util <$> m.
Proof.
  apply map_eq. intros k. rewrite !lookup_fmap.
  destruct (m !! k) as [[] |]; reflexivity.
Qed.

Lemma step_keeps_same_reservations tick : keeps same_reservations (step tick).
Proof.
  apply step_keeps; [exact _ | ..]; intros; split; cbn; try reflexivity.
  - apply without_util_refreshed.
  - apply fmap_alter_same. intros []; reflexivity.
Qed.

Lemma same_reservations_lookup s s' i pm' :
  same_reservations s s' ->
  _machines s' !! i = Some pm' ->
  exists pm, _machines s !! i = Some pm /\ reservation pm = reservation pm'.
Proof.
  intros [Hm _ _ _ _ _ _] Hpm.
  apply (f_equal (fun l => l !! i)) in Hm. rewrite !list_lookup_fmap, Hpm in Hm.
  destruct (_machines s !! i) as [pm |]; [| discriminate].
  exists pm. split; [reflexivity |]. cbn in Hm. congruence.
Qed.

Lemma same_reservations_live s s' k vm' :
  same_reservations s s' ->
  _vm s' !! k = Some vm' ->
  exists vm, _vm s !! k = Some vm /\ without_util vm = without_util vm'.
Proof.
  intros [_ Hv _ _ _ _ _] Hvm.
  apply (f_equal (fun m => m !! k)) in Hv. rewrite !lookup_fmap, Hvm in Hv.
  destruct (_vm s !! k) as [vm |]; [| discriminate].
  exists vm. split; [reflexivity |]. cbn in Hv. congruence.
Qed.

(** ** The two halves of a tick *)

#[export] Instance only_utilisation_preorder : PreOrder only_utilisation.
Proof.
  split.
  - intros s. split; reflexivity.
  - intros s1 s2 s3 [] []. split; etransitivity; eassumption.
Qed.

Lemma refresh_set_tick tick s :
  refresh tick s = (exec _update_vm_util in _update_pm_util) (set_tick tick s).
Proof. reflexivity. Qed.

Lemma step_refresh tick s :
  step tick s =
    match refresh tick s with
    | (Ok series, s1) =>
        (Ok series, set_event_buffer (_event_buffer s1 ++ [tick_event tick]) s1)
    | (Raise e, s1) => (Raise e, s1)
    end.
Proof.
  unfold step, refresh, insert_event, bind, modify, ret.
  match goal with
  | |- context [_update_vm_util ?x] =>
      destruct (_update_vm_util x) as [[[] | e] s1]; [| reflexivity]
  end.
  destruct (_update_pm_util s1) as [[series | e] s2]; reflexivity.
Qed.

Lemma refresh_utilisation_keeps :
  keeps only_utilisation (exec _update_vm_util in _update_pm_util).
Proof.
  unfold _update_vm_util, _update_pm_util.
  keeps_bind; [| intros _].
  - intros s. cbn. split; [split | split | |]; cbn; try reflexivity.
    apply without_util_refreshed.
  - keeps_bind; [keeps_leaf | intros s].
    apply update_pm_util_at_keeps; [exact _ |].
    intros s0 i q. split; [split | split | |]; cbn; try reflexivity;
      apply fmap_alter_same; intros []; reflexivity.
Qed.

Lemma step_Ok tick s series s' :
  step tick s = (Ok series, s') ->
  exists s1,
    only_utilisation (set_tick tick s) s1
    /\ s' = set_event_buffer (_event_buffer s ++ [tick_event tick]) s1.
Proof.
  rewrite step_refresh, refresh_set_tick. intros H.
  pose proof (refresh_utilisation_keeps (set_tick tick s)) as Hk.
  destruct ((exec _update_vm_util in _update_pm_util) (set_tick tick s))
    as [[series1 | e] s1]; [| discriminate].
  injection H as _ <-. exists s1. split; [exact Hk |].
  destruct Hk as [_ _ Hb _]. cbn in Hb. now rewrite Hb.
Qed.

Lemma step_Raise tick s e s' :
  step tick s = (Raise e, s') -> only_utilisation (set_tick tick s) s'.
Proof.
  rewrite step_refresh, refresh_set_tick. intros H.
  pose proof (refresh_utilisation_keeps (set_tick tick s)) as Hk.
  destruct ((exec _update_vm_util in _update_pm_util) (set_tick tick s))
    as [[series1 | e1] s1]; [discriminate |].
  now injection H as _ <-.
Qed.

(** The engine a tick leaves: only utilisations and the tick have changed
    and, when it returns, its event is inserted. *)
Lemma call_Step_outcome tick s :
  exists s1,
    only_utilisation (set_tick tick s) s1
    /\ ((exists e, fst (call (Step tick) s) = Raise e)
           /\ snd (call (Step tick) s) = s1
        \/ fst (call (Step tick) s) = Ok tt
           /\ snd (call (Step tick) s)
              = set_event_buffer (_event_buffer s ++ [tick_event tick]) s1).
Proof.
  cbn [call]. unfold discard, bind.
  destruct (step tick s) as [[series | e] s'] eqn:E; cbn.
  - destruct (step_Ok _ _ _ _ E) as (s1 & Hou & ->).
    exists s1. split; [exact Hou |]. right. split; reflexivity.
  - exists s'. split; [exact (step_Raise _ _ _ _ E) |]. left.
    split; [eexists |]; reflexivity.
Qed.

Lemma _on_vm_required_None s evt :
  payload evt = PNone -> _on_vm_required evt s = (Raise AttributeError, s).
Proof.
  intros Hp. apply _on_vm_required_bad_payload. now rewrite Hp.
Qed.

(** X4.  A tick that returns has set the tick and inserted one event, of
    the requirement kind and without a payload.  The handler registered for
    that kind raises [AttributeError] on it, from any engine and without
    changing it: the requirement event of a tick is never served. *)
Theorem tick_event_is_never_served tick s series s' :
  step tick s = (Ok series, s') ->
  _tick s' = tick
  /\ _event_buffer s' = _event_buffer s ++ [tick_event tick]
  /\ event_type (tick_event tick) = Some REQUIREMENTS
  /\ payload (tick_event tick) = PNone
  /\ exists h,
       deliver (tick_event tick) = Some h
       /\ forall s'', h s'' = (Raise AttributeError, s'').
Proof.
  intros H. destruct (step_Ok tick s series s' H) as (s1 & [_ _ _ Ht] & ->).
  cbn in Ht. repeat split; [exact Ht |].
  exists (discard (_on_vm_required (tick_event tick))). split; [reflexivity |].
  intros s''. unfold discard, bind.
  now rewrite _on_vm_required_None.
Qed.

(** ** Counters and events *)

Lemma only_utilisation_counters tick s s1 :
  only_utilisation (set_tick tick s) s1 ->
  _successful_requirements s1 = _successful_requirements s
  /\ _failed_requirements s1 = _failed_requirements s
  /\ _total_latency s1 = _total_latency s
  /\ _energy_consumption s1 = _energy_consumption s
  /\ _delay_duration s1 = _delay_duration s
  /\ _event_buffer s1 = _event_buffer s
  /\ stdout s1 = stdout s
  /\ size (_vm s1) = size (_vm s).
Proof.
  intros [[_ Hv Hs Hf Hl _ Ho] [Hd _ _ _ He _] Hb _]. cbn in *.
  repeat split; try assumption.
  apply (f_equal size) in Hv. now rewrite !map_size_fmap in Hv.
Qed.

(** ** Reservations in runs with ticks *)

Lemma call_Step_same_reservations tick s :
  same_reservations s (snd (call (Step tick) s)).
Proof.
  cbn [call]. unfold discard.
  assert (H : keeps same_reservations (let* _ := step tick in ret tt)).
  { keeps_bind; [apply step_keeps_same_reservations | intros ?; keeps_leaf]. }
  exact (H s).
Qed.

Lemma same_reservations_nothing_reserved s s' :
  same_reservations s s' -> nothing_reserved s -> nothing_reserved s'.
Proof.
  intros Hs [Hcpu Hmem Hlc Hlm]. split.
  - intros i pm' Hpm. destruct (same_reservations_lookup s s' i pm' Hs Hpm) as (pm & H & E).
    injection E as _ _ _ <- _ _. eauto.
  - intros i pm' Hpm. destruct (same_reservations_lookup s s' i pm' Hs Hpm) as (pm & H & E).
    injection E as _ _ _ _ <- _. eauto.
  - intros k vm' Hvm. destruct (same_reservations_live s s' k vm' Hs Hvm) as (vm & H & E).
    injection E as _ <- _ _ _ _ _. eauto.
  - intros k vm' Hvm. destruct (same_reservations_live s s' k vm' Hs Hvm) as (vm & H & E).
    injection E as _ _ <- _ _ _ _. eauto.
Qed.

Lemma nothing_reserved_call s c :
  nothing_reserved s ->
  call_ok nonnegative_requests s c = true ->
  nothing_reserved (snd (call c s)).
Proof.
  destruct c as [i | tick]; intros HP Hok.
  - apply nothing_reserved_handle; [exact HP |].
    unfold returning_or_nonnegative. cbn in Hok. rewrite Hok. apply orb_true_r.
  - eapply same_reservations_nothing_reserved; [| exact HP].
    apply call_Step_same_reservations.
Qed.

(** X2.  In a run of handler invocations and ticks, which may raise, in
    which no assigned VM asks for a negative amount of CPU or of memory, no
    machine ever has a positive amount reserved. *)
Theorem reservations_never_grow c s pm :
  reachable_with_ticks nonnegative_requests c s ->
  In pm (_machines s) ->
  PhysicalMachine.req_cpu pm <= 0 /\ PhysicalMachine.req_mem pm <= 0.
Proof.
  intros [calls Hrun] Hin.
  pose proof (run_calls_invariant nothing_reserved nonnegative_requests
                nothing_reserved_call calls (init c) s
                (nothing_reserved_init c) Hrun) as [Hcpu Hmem _ _].
  apply list_elem_of_In, list_elem_of_lookup in Hin as [j Hj].
  split; eauto.
Qed.

Lemma difference_of_empty (X Y : gset Z) : X = ∅ -> X ∖ Y = ∅.
Proof.
  intros ->. apply set_eq. intros x. rewrite elem_of_difference. split.
  - intros [H _]. exact H.
  - intros H. now apply elem_of_empty in H.
Qed.

Lemma nothing_hosted_init c : nothing_hosted (init c).
Proof.
  intros i pm Hpm. cbn in Hpm. apply _init_machines_lookup in Hpm. now subst pm.
Qed.

Lemma nothing_hosted_call s c :
  nothing_hosted s -> nothing_hosted (snd (call c s)).
Proof.
  intros HP. destruct c as [i | tick].
  - cbn [call].
    destruct (handle_outcome s i) as [Hr | (e & _ & Hr)].
    + destruct Hr as
        [evt vm_req b Hp Hv | evt vm_req b Hp Hv Hb | evt vm_req b Hp Hv Hb
        | evt vm_id vm j pm Hp Hvm Hj Hpm Hcap
        | evt a Hp Ha Hb]; try exact HP.
      intros k pm' Hk. cbn in Hk.
      apply list_lookup_insert_Some in Hk as [(<- & <- & _) | [_ Hk]]; [| eauto].
      cbn. apply difference_of_empty. eauto.
    + destruct Hr as
        [evt Hp | evt Hp | evt vm_id Hp Hvm | evt vm_id vm Hp Hvm Hi
        | evt vm_id vm j pm Hp Hvm Hj Hpm Hcap
        | evt Hp | evt a Hp Ha | evt a Hp Ha Hb]; try exact HP.
      intros k pm' Hk. cbn in Hk.
      apply list_lookup_insert_Some in Hk as [(<- & <- & _) | [_ Hk]]; [| eauto].
      cbn. eauto.
  - intros k pm' Hk.
    destruct (same_reservations_lookup s _ k pm' (call_Step_same_reservations tick s) Hk)
      as (pm & H & E).
    injection E as _ _ _ _ _ <-. eauto.
Qed.

Lemma run_calls_nothing_hosted ok c calls s :
  run_calls ok calls (init c) = Some s -> nothing_hosted s.
Proof.
  apply (run_calls_invariant nothing_hosted ok); [| apply nothing_hosted_init].
  intros s0 c0 HP _. now apply nothing_hosted_call.
Qed.

(** X3.  In every run of handler invocations and ticks, whatever the
    inputs and whether the calls return or raise, no machine ever holds the
    id of a VM: the only statement that adds one is never reached. *)
Theorem no_machine_ever_hosts ok c s pm :
  reachable_with_ticks ok c s ->
  In pm (_machines s) ->
  PhysicalMachine.vm_set pm = ∅.
Proof.
  intros [calls Hrun] Hin.
  apply list_elem_of_In, list_elem_of_lookup in Hin as [j Hj].
  exact (run_calls_nothing_hosted ok c calls s Hrun j pm Hj).
Qed.

(** ** Counters, latency and events *)

Lemma mismatch_reported_appends vm s :
  exists lines,
    mismatch_reported vm s = stdout s ++ lines /\ (length lines <= 1)%nat.
Proof.
  unfold mismatch_reported. destruct (decide _).
  - eexists. split; [reflexivity | cbn; lia].
  - exists []. split; [now rewrite app_nil_r | cbn; lia].
Qed.

(** X5.  [get_metrics] returns the four accumulators of the engine and
    leaves the engine as it is.  Between the snapshots taken before and
    after any call, the energy consumption is the same; either both
    counters are the same, or the call returned and one of the two is one
    higher (a call that raises counts nothing); and the latency is the
    same or one of its two sides has grown by the delay. *)
Theorem metrics_move_by_one c s :
  exists m m',
    get_metrics s = (Ok m, s)
    /\ get_metrics (snd (call c s)) = (Ok m', snd (call c s))
    /\ energy_consumption m = _energy_consumption s
    /\ success_requirements m = _successful_requirements s
    /\ failed_requirements m = _failed_requirements s
    /\ total_latency m = _total_latency s
    /\ success_requirements m' = _successful_requirements (snd (call c s))
    /\ failed_requirements m' = _failed_requirements (snd (call c s))
    /\ total_latency m' = _total_latency (snd (call c s))
    /\ energy_consumption m' = energy_consumption m
    /\ ((success_requirements m' = success_requirements m
         /\ failed_requirements m' = failed_requirements m)
        \/ (fst (call c s) = Ok tt
            /\ success_requirements m' = success_requirements m + 1
            /\ failed_requirements m' = failed_requirements m)
        \/ (fst (call c s) = Ok tt
            /\ success_requirements m' = success_requirements m
            /\ failed_requirements m' = failed_requirements m + 1))
    /\ (total_latency m' = total_latency m
        \/ total_latency m'
           = Latency.mk (Latency.latency_due_to_agent (total_latency m))
               (Latency.latency_due_to_resource (total_latency m)
                + _delay_duration s)
        \/ total_latency m'
           = Latency.mk (Latency.latency_due_to_agent (total_latency m)
                         + _delay_duration s)
               (Latency.latency_due_to_resource (total_latency m))).
Proof.
  eexists _, _. split; [reflexivity |]. split; [reflexivity |]. cbn.
  do 7 (split; [reflexivity |]).
  destruct c as [i | tick].
  - cbn [call]. destruct (handle_cases s i) as [[s' Hr] | (e & s' & Hr)].
    + rewrite (handle_returned_Ok _ _ _ Hr).
      destruct Hr; cbn; split; try reflexivity; split; auto.
    + rewrite (handle_raised_Raise _ _ _ _ Hr).
      destruct Hr; cbn; split; try reflexivity; split; auto.
  - destruct (call_Step_outcome tick s) as (s1 & Hou & [[_ Hs] | [_ Hs]]);
      rewrite Hs;
      destruct (only_utilisation_counters _ _ _ Hou) as (H1 & H2 & Hl & He & _);
      cbn; rewrite H1, H2, Hl; (split; [exact He |]);
      (split; [left; now split | now left]).
Qed.

Lemma schedule_snoc (l : list Event) (e : Event) :
  exists new,
    schedule <$> (l ++ [e]) = (schedule <$> l) ++ new /\ (length new <= 1)%nat.
Proof. exists [schedule e]. split; [now rewrite fmap_app | cbn; lia]. Qed.

Lemma schedule_same (l : list Event) :
  exists new : list (Z * option EventType),
    schedule <$> l = (schedule <$> l) ++ new /\ (length new <= 1)%nat.
Proof. exists []. split; [now rewrite app_nil_r | cbn; lia]. Qed.

(** X6.  Any call, whatever its outcome, leaves the events already
    inserted at their ticks and under their kinds, in the order of
    insertion, and the lines already printed in place, and adds at most one
    event and at most one line. *)
Theorem events_are_only_appended c s :
  exists new_events new_lines,
    schedule <$> _event_buffer (snd (call c s))
    = (schedule <$> _event_buffer s) ++ new_events
    /\ (length new_events <= 1)%nat
    /\ stdout (snd (call c s)) = stdout s ++ new_lines
    /\ (length new_lines <= 1)%nat.
Proof.
  assert (Hnil : exists new, stdout s = stdout s ++ new /\ (length new <= 1)%nat).
  { exists []. split; [now rewrite app_nil_r | cbn; lia]. }
  assert (Hgoal : forall b o,
            (exists new, schedule <$> b = (schedule <$> _event_buffer s) ++ new
                         /\ (length new <= 1)%nat) ->
            (exists new, o = stdout s ++ new /\ (length new <= 1)%nat) ->
            exists new_events new_lines,
              schedule <$> b = (schedule <$> _event_buffer s) ++ new_events
              /\ (length new_events <= 1)%nat
              /\ o = stdout s ++ new_lines /\ (length new_lines <= 1)%nat).
  { intros b o (ne & Hb & Hne) (nl & -> & Hnl). exists ne, nl. auto. }
  destruct c as [i | tick].
  - cbn [call]. destruct (handle_cases s i) as [[s' Hr] | (e & s' & Hr)].
    + rewrite (handle_returned_Ok _ _ _ Hr).
      destruct Hr; cbn; apply Hgoal;
        auto using schedule_snoc, schedule_same, mismatch_reported_appends.
    + rewrite (handle_raised_Raise _ _ _ _ Hr).
      destruct Hr; cbn; apply Hgoal;
        auto using schedule_snoc, schedule_same, mismatch_reported_appends.
  - destruct (call_Step_outcome tick s) as (s1 & Hou & [[_ Hs] | [_ Hs]]);
      rewrite Hs;
      destruct (only_utilisation_counters _ _ _ Hou)
        as (_ & _ & _ & _ & _ & Hb & Ho & _).
    + rewrite Hb, Ho. apply Hgoal; auto using schedule_same.
    + cbn. rewrite Ho. apply Hgoal; auto using schedule_snoc.
Qed.

Lemma count_events_snoc f l e :
  count_events f (l ++ [e]) = count_events f l + (if f e then 1 else 0).
Proof.
  unfold count_events. rewrite List.filter_app, length_app. cbn.
  destruct (f e); cbn; lia.
Qed.

Lemma count_calls_cons f c l :
  count_calls f (c :: l) = (if f c then 1 else 0) + count_calls f l.
Proof. unfold count_calls. cbn. destruct (f c); cbn [length]; lia. Qed.

Lemma requirement_of_setattr (p : Payload) vm_req b v :
  requirement_of p = Some (vm_req, b) ->
  requirement_of (setattr_buffer_time v p) = Some (vm_req, v).
Proof. destruct p; try discriminate; cbn; intros H; injection H as <- _; reflexivity. Qed.

(** What one call adds to the two sides of the latency. *)
Lemma latency_call c s :
  let s' := snd (call c s) in
  _delay_duration s' = _delay_duration s
  /\ Latency.latency_due_to_resource (_total_latency s')
     - _delay_duration s * count_events postponed_for_resource (_event_buffer s')
     = Latency.latency_due_to_resource (_total_latency s)
       - _delay_duration s * count_events postponed_for_resource (_event_buffer s)
  /\ Latency.latency_due_to_agent (_total_latency s')
     = Latency.latency_due_to_agent (_total_latency s)
       + _delay_duration s * (if postponing c then 1 else 0).
Proof.
  destruct c as [i | tick].
  - cbn [call].
    destruct (handle_outcome s i) as [Hr | (e & _ & Hr)].
    + destruct Hr as
        [evt vm_req b Hp Hv | evt vm_req b Hp Hv Hb | evt vm_req b Hp Hv Hb
        | evt vm_id vm j pm Hp Hvm Hj Hpm Hcap
        | evt a Hp Ha Hb]; cbn; rewrite ?count_events_snoc.
      * repeat split; lia.
      * unfold postponed_for_resource at 2. cbn.
        rewrite (requirement_of_setattr _ _ _ _ Hp). repeat split; lia.
      * repeat split; lia.
      * repeat split; lia.
      * rewrite Hp, Ha. cbn.
        destruct (Z.gtb_spec (Action.buffer_time a) 0); [lia |]. repeat split; lia.
    + destruct Hr as
        [evt Hp | evt Hp | evt vm_id Hp Hvm | evt vm_id vm Hp Hvm Hi
        | evt vm_id vm j pm Hp Hvm Hj Hpm Hcap
        | evt Hp | evt a Hp Ha | evt a Hp Ha Hb]; cbn; try (repeat split; lia).
      * destruct (payload evt) as [| | | | a]; try (repeat split; lia).
        now destruct (Hp a).
      * rewrite Hp, Ha. cbn. repeat split; lia.
      * rewrite Hp, Ha. cbn.
        destruct (Z.gtb_spec (Action.buffer_time a) 0); [| lia]. repeat split; lia.
  - destruct (call_Step_outcome tick s) as (s1 & Hou & [[_ Hs] | [_ Hs]]);
      cbn zeta; rewrite Hs;
      destruct (only_utilisation_counters _ _ _ Hou)
        as (_ & _ & Hl & _ & Hd & Hb & _).
    + rewrite Hl, Hd, Hb. cbn. repeat split; lia.
    + cbn. rewrite count_events_snoc, Hl, Hd. cbn. repeat split; lia.
Qed.

Lemma latency_run ok calls :
  forall s s',
    run_calls ok calls s = Some s' ->
    _delay_duration s' = _delay_duration s
    /\ Latency.latency_due_to_resource (_total_latency s')
       - _delay_duration s * count_events postponed_for_resource (_event_buffer s')
       = Latency.latency_due_to_resource (_total_latency s)
         - _delay_duration s * count_events postponed_for_resource (_event_buffer s)
    /\ Latency.latency_due_to_agent (_total_latency s')
       = Latency.latency_due_to_agent (_total_latency s)
         + _delay_duration s * count_calls postponing calls.
Proof.
  induction calls as [| c rest IH]; intros s s' Hrun; cbn in Hrun.
  - injection Hrun as <-. unfold count_calls. cbn. repeat split; lia.
  - destruct (call_ok ok s c); [| discriminate].
    destruct (IH _ _ Hrun) as (Hd & Hres & Hag).
    destruct (latency_call c s) as (Hd1 & Hres1 & Hag1). cbn zeta in *.
    rewrite count_calls_cons. rewrite Hd1 in Hd, Hres, Hag.
    repeat split; [congruence | lia | ].
    rewrite Hag, Hag1. destruct (postponing c); lia.
Qed.

(** X7.  At the end of a run of handler invocations and ticks, which may
    raise, [latency_due_to_resource] is the configured delay times the
    number of postponement events that the requirement handler has
    inserted, and [latency_due_to_agent] is the delay times the number of
    calls in which the agent postponed with buffer time left: each of them
    charged the delay before it raised, and inserted no event. *)
Theorem latency_is_delay_times_postponements ok c calls s :
  run_calls ok calls (init c) = Some s ->
  Latency.latency_due_to_resource (_total_latency s)
    = delay_duration c * count_events postponed_for_resource (_event_buffer s)
  /\ Latency.latency_due_to_agent (_total_latency s)
       = delay_duration c * count_calls postponing calls.
Proof.
  intros Hrun. destruct (latency_run ok calls _ _ Hrun) as (_ & Hres & Hag).
  cbn in Hres, Hag. unfold count_events in Hres at 2. cbn in Hres.
  split; lia.
Qed.

(** What one call adds to the live VMs and the successes. *)
Lemma successes_call c s :
  let s' := snd (call c s) in
  (0 <= _successful_requirements s -> 0 <= _successful_requirements s')
  /\ (0 <= _failed_requirements s -> 0 <= _failed_requirements s')
  /\ Z.of_nat (size (_vm s')) + _successful_requirements s'
     <= Z.of_nat (size (_vm s)) + _successful_requirements s
        + (if assigning c then 1 else 0).
Proof.
  destruct c as [i | tick].
  - cbn [call].
    destruct (handle_outcome s i) as [Hr | (e & _ & Hr)].
    + destruct Hr as
        [evt vm_req b Hp Hv | evt vm_req b Hp Hv Hb | evt vm_req b Hp Hv Hb
        | evt vm_id vm j pm Hp Hvm Hj Hpm Hcap
        | evt a Hp Ha Hb]; cbn.
      * repeat split; lia.
      * repeat split; lia.
      * repeat split; lia.
      * pose proof (map_size_delete_Some vm_id (_vm s) (mk_is_Some _ _ Hvm)) as Hd.
        pose proof (map_size_ne_0_lookup_2 (_vm s) vm_id (mk_is_Some _ _ Hvm)) as Hn.
        repeat split; lia.
      * rewrite Hp, Ha. repeat split; lia.
    + destruct Hr as
        [evt Hp | evt Hp | evt vm_id Hp Hvm | evt vm_id vm Hp Hvm Hi
        | evt vm_id vm j pm Hp Hvm Hj Hpm Hcap
        | evt Hp | evt a Hp Ha | evt a Hp Ha Hb]; cbn;
        try (repeat split; lia).
      * destruct (match payload evt with PAction _ => _ | _ => _ end);
          repeat split; lia.
      * rewrite Hp, Ha.
        pose proof (map_size_insert (VirtualMachine.id (Action.vm_req a))
                      (placed a (tick evt)) (_vm s)) as Hi'.
        destruct (_vm s !! VirtualMachine.id (Action.vm_req a));
          cbn in Hi'; repeat split; lia.
      * rewrite Hp, Ha. repeat split; lia.
  - destruct (call_Step_outcome tick s) as (s1 & Hou & [[_ Hs] | [_ Hs]]);
      cbn zeta; rewrite Hs;
      destruct (only_utilisation_counters _ _ _ Hou)
        as (Hs2 & Hf2 & _ & _ & _ & _ & _ & Hsz);
      cbn; rewrite Hs2, Hf2, Hsz; repeat split; lia.
Qed.

Lemma successes_run ok calls :
  forall s s',
    run_calls ok calls s = Some s' ->
    (0 <= _successful_requirements s -> 0 <= _successful_requirements s')
    /\ (0 <= _failed_requirements s -> 0 <= _failed_requirements s')
    /\ Z.of_nat (size (_vm s')) + _successful_requirements s'
       <= Z.of_nat (size (_vm s)) + _successful_requirements s
          + count_calls assigning calls.
Proof.
  induction calls as [| c rest IH]; intros s s' Hrun; cbn in Hrun.
  - injection Hrun as <-. unfold count_calls. cbn. repeat split; lia.
  - destruct (call_ok ok s c); [| discriminate].
    destruct (IH _ _ Hrun) as (H1 & H2 & H3).
    destruct (successes_call c s) as (G1 & G2 & G3). cbn zeta in *.
    rewrite count_calls_cons.
    repeat split; [tauto | tauto |]. destruct (assigning c); lia.
Qed.

(** X8.  At the end of a run of handler invocations and ticks, which may
    raise, no counter is negative, and the number of live VMs plus the
    number of successes is at most the number of calls in which the agent
    assigned: a success is counted only for a VM that an assigning action
    stored before it raised. *)
Theorem successes_are_covered_by_assignments ok c calls s :
  run_calls ok calls (init c) = Some s ->
  0 <= _successful_requirements s
  /\ 0 <= _failed_requirements s
  /\ Z.of_nat (size (_vm s)) + _successful_requirements s
       <= count_calls assigning calls.
Proof.
  intros Hrun. destruct (successes_run ok calls _ _ Hrun) as (H1 & H2 & H3).
  cbn in H1, H2, H3. rewrite map_size_empty in H3.
  repeat split; lia.
Qed.

(** ** Exceptions *)

(** X9.  A handler invocation that raises [AttributeError] (a payload of
    the wrong class, or none), [KeyError] (a finish event for a VM that is
    not live) or, for a finish event, [IndexError] (the VM's [pm_id] reads
    no machine) leaves the engine exactly as it was. *)
Theorem early_exceptions_change_nothing s i e s' :
  handle i s = (Raise e, s') ->
  e = AttributeError \/ e = KeyError \/ (e = IndexError /\ exists evt, i = Finish evt) ->
  s' = s.
Proof.
  intros H He. apply handle_Raise_raised in H.
  destruct H; try reflexivity;
    destruct He as [He | [He | [He _]]]; discriminate.
Qed.


Lemma py_index_negative {A} (l : list A) (z : Z) :
  - Z.of_nat (length l) <= z < 0 ->
  py_index l z = Some (Z.to_nat (Z.of_nat (length l) + z)).
Proof.
  intros Hz. unfold py_index.
  destruct (decide (0 <= z < Z.of_nat (length l))) as [H | _]; [lia |].
  destruct (decide (- Z.of_nat (length l) <= z < 0)) as [_ | H]; [reflexivity | lia].
Qed.

(** What the finish handler does to the machine of a live VM, whether it
    then returns or raises at the division. *)
Lemma _on_vm_finished_subtracts s fin vm_id vm i pm :
  payload fin = PFinished (VmFinishedPayload.mk vm_id) ->
  _vm s !! vm_id = Some vm ->
  py_index (_machines s) (VirtualMachine.pm_id vm) = Some i ->
  _machines s !! i = Some pm ->
  exists pm',
    _machines (snd (_on_vm_finished fin s)) = <[i := pm']> (_machines s)
    /\ PhysicalMachine.req_cpu pm'
       = PhysicalMachine.req_cpu pm - VirtualMachine.req_cpu vm
    /\ PhysicalMachine.req_mem pm'
       = PhysicalMachine.req_mem pm - VirtualMachine.req_mem vm
    /\ PhysicalMachine.id pm' = PhysicalMachine.id pm
    /\ PhysicalMachine.cap_cpu pm' = PhysicalMachine.cap_cpu pm
    /\ PhysicalMachine.cap_mem pm' = PhysicalMachine.cap_mem pm
    /\ fst (_on_vm_finished fin s) <> Raise IndexError
    /\ fst (_on_vm_finished fin s) <> Raise AttributeError.
Proof.
  intros Hp Hvm Hi Hpm.
  destruct (decide (PhysicalMachine.cap_cpu pm = 0)) as [Hcap | Hcap].
  - rewrite (_on_vm_finished_no_capacity_state s fin vm_id vm i pm Hp Hvm Hi Hpm Hcap).
    exists (unreserved vm pm). cbn. repeat split; discriminate.
  - rewrite (_on_vm_finished_live s fin vm_id vm i pm Hp Hvm Hi Hpm Hcap).
    exists (released vm_id vm pm). cbn. repeat split; discriminate.
Qed.

(** X11.  A finish event for a live VM whose [pm_id] is negative, within
    the length of the machine list, is not refused with [IndexError]: the
    VM's [req_cpu] and [req_mem] are subtracted from the machine counted
    from the end of the list, and every other machine is left as it
    was. *)
Theorem negative_pm_id_counts_from_the_end s fin vm_id vm pm :
  payload fin = PFinished (VmFinishedPayload.mk vm_id) ->
  _vm s !! vm_id = Some vm ->
  - Z.of_nat (length (_machines s)) <= VirtualMachine.pm_id vm < 0 ->
  _machines s
    !! Z.to_nat (Z.of_nat (length (_machines s)) + VirtualMachine.pm_id vm)
  = Some pm ->
  let i := Z.to_nat (Z.of_nat (length (_machines s)) + VirtualMachine.pm_id vm) in
  let s' := snd (_on_vm_finished fin s) in
  fst (_on_vm_finished fin s) <> Raise IndexError
  /\ (exists pm',
        _machines s' !! i = Some pm'
        /\ PhysicalMachine.req_cpu pm'
           = PhysicalMachine.req_cpu pm - VirtualMachine.req_cpu vm
        /\ PhysicalMachine.req_mem pm'
           = PhysicalMachine.req_mem pm - VirtualMachine.req_mem vm
        /\ PhysicalMachine.id pm' = PhysicalMachine.id pm)
  /\ (forall j, j <> i -> _machines s' !! j = _machines s !! j).
Proof.
  intros Hp Hvm Hz Hpm i s'. subst s'.
  pose proof (py_index_negative _ _ Hz) as Hi. fold i in Hi, Hpm.
  destruct (_on_vm_finished_subtracts s fin vm_id vm i pm Hp Hvm Hi Hpm)
    as (pm' & Hm & Hcpu & Hmem & Hid & _ & _ & Hne & _).
  split; [exact Hne |]. split.
  - exists pm'. rewrite Hm. split; [| now repeat split].
    apply list_lookup_insert_eq. eapply lookup_lt_Some, Hpm.
  - intros j Hj. rewrite Hm. now apply list_lookup_insert_ne.
Qed.

(** ** An assignment and its finish event *)

(** X12.  After an assigning action, which raises before it reserves
    anything, the finish event of its VM subtracts the VM's [req_cpu] and
    [req_mem] from the machine that the action named, though they were
    never added, and leaves every other machine as it was. *)
Theorem finish_after_assignment_releases_unreserved s evt a i pm fin :
  payload evt = PAction a ->
  Action.assign a = true ->
  py_index (_machines s) (Action.pm_id a) = Some i ->
  _machines s !! i = Some pm ->
  payload fin
  = PFinished (VmFinishedPayload.mk (VirtualMachine.id (Action.vm_req a))) ->
  let s1 := snd (_on_action_received evt s) in
  let s2 := snd (_on_vm_finished fin s1) in
  fst (_on_action_received evt s) = Raise TypeError
  /\ _machines s1 = _machines s
  /\ (exists pm2,
        _machines s2 !! i = Some pm2
        /\ PhysicalMachine.req_cpu pm2
           = PhysicalMachine.req_cpu pm - VirtualMachine.req_cpu (Action.vm_req a)
        /\ PhysicalMachine.req_mem pm2
           = PhysicalMachine.req_mem pm - VirtualMachine.req_mem (Action.vm_req a)
        /\ PhysicalMachine.id pm2 = PhysicalMachine.id pm
        /\ PhysicalMachine.cap_cpu pm2 = PhysicalMachine.cap_cpu pm
        /\ PhysicalMachine.cap_mem pm2 = PhysicalMachine.cap_mem pm)
  /\ (forall j, j <> i -> _machines s2 !! j = _machines s !! j).
Proof.
  intros Hp Ha Hi Hpm Hfin s1 s2. subst s1 s2.
  rewrite (_on_action_received_assign s evt a Hp Ha).
  split; [reflexivity |]. split; [reflexivity |].
  cbn [snd].
  destruct (_on_vm_finished_subtracts (assign_stored evt a s) fin
              (VirtualMachine.id (Action.vm_req a)) (placed a (tick evt)) i pm)
    as (pm2 & Hm & Hcpu & Hmem & Hid & Hcc & Hcm & _).
  - exact Hfin.
  - cbn. apply lookup_insert_eq.
  - exact Hi.
  - exact Hpm.
  - cbn [_machines assign_stored set_vm set_stdout] in Hm. split.
    + exists pm2. rewrite Hm. split; [| now repeat split].
      apply list_lookup_insert_eq. eapply lookup_lt_Some, Hpm.
    + intros j Hj. rewrite Hm. now apply list_lookup_insert_ne.
Qed.

(** ** The pending id *)

(** X14.  Only a requirement that finds a candidate changes the pending id,
    to the id of its VM.  No action, finish event or tick changes it,
    whatever the outcome: once the agent has answered, the answered VM is
    still the pending one. *)
Theorem pending_id_is_never_cleared c s :
  _pending_action_vm_id (snd (call c s)) = _pending_action_vm_id s
  \/ exists evt vm_req b,
       c = Handle (Requirement evt)
       /\ requirement_of (payload evt) = Some (vm_req, b)
       /\ valid_pm_list (_machines s) vm_req <> []
       /\ fst (call c s) = Ok tt
       /\ _pending_action_vm_id (snd (call c s)) = VirtualMachine.id vm_req.
Proof.
  destruct c as [i | tick].
  - cbn [call]. destruct (handle_cases s i) as [[s' Hr] | (e & s' & Hr)].
    + rewrite (handle_returned_Ok _ _ _ Hr).
      destruct Hr as
        [evt vm_req b Hp Hv | evt vm_req b Hp Hv Hb | evt vm_req b Hp Hv Hb
        | evt vm_id vm j pm Hp Hvm Hj Hpm Hcap
        | evt a Hp Ha Hb]; try (left; reflexivity).
      right. exists evt, vm_req, b. repeat split; assumption.
    + rewrite (handle_raised_Raise _ _ _ _ Hr). left.
      destruct Hr; reflexivity.
  - left.
    exact (same_pending _ _ (call_Step_same_reservations tick s)).
Qed.

(** ** The loops of a tick *)

Lemma total_util_cpu_over_live (ids : list Z) :
  forall total s,
    (forall k, k ∈ ids -> is_Some (_vm s !! k)) ->
    total_util_cpu_over ids total s
    = (Ok (total_contribution (_vm s) ids total), s).
Proof.
  induction ids as [| k ids IH]; intros total s Hlive; [reflexivity |].
  cbn [total_util_cpu_over total_contribution foldl].
  destruct (Hlive k) as [vm Hvm]; [left |].
  unfold vm_getitem, bind, get, lift_opt. rewrite Hvm. cbn [ret].
  rewrite IH by (intros k' Hk'; apply Hlive; now right).
  unfold contribution at 2. now rewrite Hvm.
Qed.

Lemma total_util_cpu_over_Ok (ids : list Z) :
  forall total s q s',
    total_util_cpu_over ids total s = (Ok q, s') ->
    forall k, k ∈ ids -> is_Some (_vm s !! k).
Proof.
  induction ids as [| k ids IH]; intros total s q s' H k' Hk'.
  - now apply elem_of_nil in Hk'.
  - cbn [total_util_cpu_over] in H. unfold vm_getitem, bind, get, lift_opt in H.
    destruct (_vm s !! k) as [vm |] eqn:Hvm; [| discriminate].
    cbn [ret] in H.
    apply elem_of_cons in Hk' as [-> | Hk']; [eauto |].
    eapply IH; eassumption.
Qed.

Lemma list_alter_middle {A} (f : A -> A) (l1 l2 : list A) (x : A) :
  alter f (length l1) (l1 ++ x :: l2) = l1 ++ f x :: l2.
Proof.
  induction l1 as [| y l1 IH]; [reflexivity |].
  cbn. f_equal. exact IH.
Qed.

(** The outer loop on a list of healthy machines. *)
Lemma update_pm_util_at_healthy (rest : list PhysicalMachine.t) :
  forall done s,
    _machines s = done ++ rest ->
    Forall (healthy (_vm s)) rest ->
    update_pm_util_at (seq (length done) (length rest)) s
    = (Ok (series_from (length done) (_tick s) (_vm s) rest),
       set_machines (done ++ (recomputed (_vm s) <$> rest)) s).
Proof.
  induction rest as [| pm rest IH]; intros done s Hm Hh.
  - cbn. unfold ret. rewrite app_nil_r, <- (app_nil_r done), <- Hm.
    now destruct s.
  - apply Forall_cons in Hh as [[Hcap Hlive] Hh].
    cbn [length seq update_pm_util_at series_from].
    unfold machine_at, update_machine.
    erewrite bind_Ok.
    2: { unfold bind, get, lift_opt. rewrite Hm, list_lookup_middle by reflexivity.
         reflexivity. }
    cbv beta. erewrite bind_Ok.
    2: { apply total_util_cpu_over_live. intros k Hk. apply Hlive.
         now apply elem_of_elements. }
    cbv beta. erewrite bind_Ok by now apply truediv_inject_Z.
    cbv beta. unfold bind at 1, modify at 1. unfold bind at 1, get at 1.
    rewrite Hm, list_alter_middle.
    change (PhysicalMachine.set_util_cpu _ pm) with (recomputed (_vm s) pm).
    set (s1 := set_machines (done ++ recomputed (_vm s) pm :: rest) s).
    assert (IH1 := IH (done ++ [recomputed (_vm s) pm]) s1).
    rewrite length_app in IH1. cbn [length] in IH1.
    replace (length done + 1)%nat with (S (length done)) in IH1 by lia.
    erewrite bind_Ok by (apply IH1; [cbn; now rewrite <- app_assoc | exact Hh]).
    cbn. unfold ret. rewrite <- app_assoc. reflexivity.
Qed.

(** The outer loop returns on healthy machines only. *)
Lemma update_pm_util_at_Ok (rest : list PhysicalMachine.t) :
  forall done s series s',
    _machines s = done ++ rest ->
    update_pm_util_at (seq (length done) (length rest)) s = (Ok series, s') ->
    Forall (healthy (_vm s)) rest.
Proof.
  induction rest as [| pm rest IH]; intros done s series s' Hm H; [constructor |].
  cbn [length seq update_pm_util_at] in H.
  unfold machine_at, update_machine in H.
  erewrite bind_Ok in H.
  2: { unfold bind, get, lift_opt. rewrite Hm, list_lookup_middle by reflexivity.
       reflexivity. }
  cbv beta in H. unfold bind at 1 in H.
  destruct (total_util_cpu_over (elements (PhysicalMachine.vm_set pm)) 0%Q s)
    as [[total | e] s1] eqn:Et; [| discriminate].
  pose proof (total_util_cpu_over_Ok _ _ _ _ _ Et) as Hlive.
  rewrite total_util_cpu_over_live in Et by exact Hlive.
  injection Et as <- <-.
  destruct (decide (PhysicalMachine.cap_cpu pm = 0)) as [Hz | Hcap].
  { rewrite Hz in H. unfold bind at 1 in H. rewrite truediv_by_zero in H.
    discriminate. }
  assert (Hpm : healthy (_vm s) pm).
  { split; [exact Hcap |]. intros k Hk. apply Hlive. now apply elem_of_elements. }
  constructor; [exact Hpm |].
  erewrite bind_Ok in H by now apply truediv_inject_Z.
  cbv beta in H.
  unfold bind at 1, modify at 1 in H. unfold bind at 1, get at 1 in H.
  rewrite Hm, list_alter_middle in H.
  unfold bind in H.
  change (PhysicalMachine.set_util_cpu _ pm) with (recomputed (_vm s) pm) in H.
  set (s1 := set_machines (done ++ recomputed (_vm s) pm :: rest) s) in H.
  destruct (update_pm_util_at (seq (S (length done)) (length rest)) s1)
    as [[series1 | e] s2] eqn:E; [| discriminate].
  assert (IH1 := IH (done ++ [recomputed (_vm s) pm]) s1 series1 s2).
  rewrite length_app in IH1. cbn [length] in IH1.
  replace (length done + 1)%nat with (S (length done)) in IH1 by lia.
  apply IH1; [cbn; now rewrite <- app_assoc | exact E].
Qed.

Lemma healthy_refreshed tick m pm : healthy (refreshed tick m) pm <-> healthy m pm.
Proof.
  unfold healthy, refreshed. split; intros [Hcap Hlive]; (split; [exact Hcap |]);
    intros k Hk; specialize (Hlive k Hk).
  - rewrite lookup_fmap in Hlive. now apply fmap_is_Some in Hlive.
  - rewrite lookup_fmap. now apply fmap_is_Some.
Qed.

Lemma Forall_healthy_refreshed tick m l :
  Forall (healthy (refreshed tick m)) l <-> Forall (healthy m) l.
Proof.
  split; intros H; eapply Forall_impl; try exact H; intros pm; apply healthy_refreshed.
Qed.

(** The engine a tick leaves when every machine is healthy. *)
Lemma step_healthy tick s :
  Forall (healthy (_vm s)) (_machines s) ->
  step tick s
  = (Ok (series_from 0 tick (refreshed tick (_vm s)) (_machines s)),
     set_event_buffer (_event_buffer s ++ [tick_event tick])
       (set_machines (recomputed (refreshed tick (_vm s)) <$> _machines s)
          (set_vm (refreshed tick (_vm s)) (set_tick tick s)))).
Proof.
  intros Hh. rewrite step_refresh, refresh_set_tick.
  unfold _update_vm_util, _update_pm_util, bind at 1, bind at 1, get at 1, modify.
  cbv beta iota.
  set (s1 := set_vm _ (set_tick tick s)).
  unfold bind, get.
  pose proof (update_pm_util_at_healthy (_machines s1) [] s1 eq_refl) as H.
  cbn [length app] in H.
  change (_machines s1) with (_machines s) in *.
  change (_vm s1) with (refreshed tick (_vm s)) in *.
  change (_tick s1) with tick in *.
  rewrite H by now apply Forall_healthy_refreshed.
  reflexivity.
Qed.

Lemma step_Ok_healthy tick s series s' :
  step tick s = (Ok series, s') -> Forall (healthy (_vm s)) (_machines s).
Proof.
  rewrite step_refresh, refresh_set_tick.
  unfold _update_vm_util, _update_pm_util, bind at 1, bind at 1, get at 1, modify.
  cbv beta iota.
  set (s1 := set_vm _ (set_tick tick s)).
  unfold bind, get. intros H.
  destruct (update_pm_util_at (seq 0 (length (_machines s1))) s1)
    as [[series1 | e] s2] eqn:E; [| discriminate].
  pose proof (update_pm_util_at_Ok (_machines s1) [] s1 series1 s2 eq_refl E) as Hh.
  change (_machines s1) with (_machines s) in Hh.
  change (_vm s1) with (refreshed tick (_vm s)) in Hh.
  now apply Forall_healthy_refreshed in Hh.
Qed.

Lemma length_series_from k tick m l : length (series_from k tick m l) = length l.
Proof.
  revert k. induction l as [| pm l IH]; intros k; [reflexivity |].
  cbn [series_from length]. now rewrite IH.
Qed.

Lemma util_consistent_recomputed m l s :
  util_consistent (set_machines (recomputed m <$> l) (set_vm m s)).
Proof.
  intros i pm' Hpm. cbn in Hpm. rewrite list_lookup_fmap in Hpm.
  destruct (l !! i) as [pm |]; [| discriminate].
  injection Hpm as <-. cbn. reflexivity.
Qed.

Lemma step_util_consistent tick s series s' :
  step tick s = (Ok series, s') -> util_consistent s'.
Proof.
  intros H. pose proof (step_Ok_healthy _ _ _ _ H) as Hh.
  rewrite (step_healthy tick s Hh) in H. injection H as <- <-.
  intros i pm' Hpm. cbn in Hpm |- *.
  exact (util_consistent_recomputed (refreshed tick (_vm s)) (_machines s)
           (set_tick tick s) i pm' Hpm).
Qed.

(** ** What a tick computes *)

(** X15.  A tick that returns has given every live VM the utilisation of
    its curve at the tick, and then every machine the utilisation
    [total / cap_cpu * 100], where [total] sums [util_cpu * req_cpu / 100]
    over the VMs of its [vm_set] as just refreshed; nothing else of a VM or
    of a machine changes, and one history entry is written per machine, in
    the order of the list, with the tick and that utilisation. *)
Theorem tick_recomputes_utilisation tick s series s' :
  step tick s = (Ok series, s') ->
  _vm s' = refreshed tick (_vm s)
  /\ _machines s' = recomputed (_vm s') <$> _machines s
  /\ series = series_from 0 tick (_vm s') (_machines s)
  /\ length series = length (_machines s)
  /\ util_consistent s'.
Proof.
  intros H. pose proof (step_Ok_healthy _ _ _ _ H) as Hh.
  pose proof (step_util_consistent _ _ _ _ H) as Hu.
  rewrite (step_healthy tick s Hh) in H. injection H as Hseries Hs'.
  subst series s'. cbn [_vm _machines set_event_buffer set_machines set_vm].
  split; [reflexivity |]. split; [reflexivity |]. split; [reflexivity |].
  split; [apply length_series_from | exact Hu].
Qed.

(** X16.  A tick returns exactly when every machine has a CPU capacity
    other than zero and holds in its [vm_set] only ids of live VMs. *)
Theorem tick_returns_iff_healthy tick s :
  (exists series s', step tick s = (Ok series, s'))
  <-> Forall (healthy (_vm s)) (_machines s).
Proof.
  split.
  - intros (series & s' & H). exact (step_Ok_healthy _ _ _ _ H).
  - intros Hh. eexists _, _. exact (step_healthy tick s Hh).
Qed.

(** X17.  In every run of handler invocations and ticks, whatever the
    inputs and whether the calls return or raise, on an engine configured
    with a CPU capacity other than zero, a tick never raises: no machine
    holds an id that the tick could miss in the live table. *)
Theorem ticks_never_raise ok c s tick :
  pm_cap_cpu c <> 0 ->
  reachable_with_ticks ok c s ->
  exists series s', step tick s = (Ok series, s').
Proof.
  intros Hcap [calls Hrun].
  destruct (run_calls_machines _ c calls s Hrun) as (_ & Hm & _).
  pose proof (run_calls_nothing_hosted ok c calls s Hrun) as Hnone.
  eexists _, _. apply step_healthy.
  apply Forall_lookup. intros i pm Hpm. split.
  - destruct (Hm i pm Hpm) as (_ & Hc & _). congruence.
  - intros k Hk. rewrite (Hnone i pm Hpm) in Hk. now apply elem_of_empty in Hk.
Qed.

Lemma pm_util_nothing_hosted m pm :
  PhysicalMachine.vm_set pm = ∅ -> (pm_util m pm == 0)%Q.
Proof.
  intros H. unfold pm_util. rewrite H, elements_empty. cbn.
  unfold Qdiv. now rewrite !Qmult_0_l.
Qed.

(** X18.  In every run of handler invocations and ticks, a tick that
    returns leaves every machine with a utilisation of zero, whatever the
    live VMs and whatever the finish handler had left there: the sum that
    the tick takes over the machine's [vm_set] is empty. *)
Theorem tick_resets_utilisation ok c s tick series s' pm :
  reachable_with_ticks ok c s ->
  step tick s = (Ok series, s') ->
  In pm (_machines s') ->
  (PhysicalMachine.util_cpu pm == 0)%Q
  /\ PhysicalMachine.vm_set pm = ∅
  /\ length series = length (_machines s).
Proof.
  intros [calls Hrun] H Hin.
  pose proof (run_calls_nothing_hosted ok c calls s Hrun) as Hnone.
  pose proof (step_Ok_healthy _ _ _ _ H) as Hh.
  rewrite (step_healthy tick s Hh) in H. injection H as Hseries Hs'.
  subst series s'. cbn in Hin.
  apply list_elem_of_In, list_elem_of_fmap in Hin as (pm0 & -> & Hin0).
  apply list_elem_of_lookup in Hin0 as [j Hj].
  split; [| split].
  - cbn. apply pm_util_nothing_hosted. exact (Hnone j pm0 Hj).
  - cbn. exact (Hnone j pm0 Hj).
  - apply length_series_from.
Qed.

(** ** The candidate list and the decision *)

Lemma valid_pm_list_ids machines vm_req :
  sublist (ValidPm.id <$> valid_pm_list machines vm_req)
          (PhysicalMachine.id <$> machines).
Proof.
  unfold valid_pm_list. induction machines as [| pm l IH]; [constructor |].
  cbn [List.filter].
  destruct (PhysicalMachine.cap_cpu pm - PhysicalMachine.req_cpu pm
            >=? VirtualMachine.req_cpu vm_req); cbn.
  - now apply sublist_skip.
  - now apply sublist_cons.
Qed.

(** X19.  The candidate list names machines of the list, in the order of
    the list and each at most as often as the list holds it (once, when the
    ids of the machines are distinct); it is empty exactly when every
    machine has less free CPU than the VM asks for; and it shrinks as the
    request grows: a candidate for a VM is a candidate for every VM that
    asks for no more CPU. *)
Theorem candidates_shrink_with_the_request machines vm_req :
  sublist (ValidPm.id <$> valid_pm_list machines vm_req)
          (PhysicalMachine.id <$> machines)
  /\ (NoDup (PhysicalMachine.id <$> machines) ->
      NoDup (ValidPm.id <$> valid_pm_list machines vm_req))
  /\ (valid_pm_list machines vm_req = [] <->
      forall pm, In pm machines ->
        PhysicalMachine.cap_cpu pm - PhysicalMachine.req_cpu pm
          < VirtualMachine.req_cpu vm_req)
  /\ (forall vm_req' c,
        VirtualMachine.req_cpu vm_req' <= VirtualMachine.req_cpu vm_req ->
        In c (valid_pm_list machines vm_req) ->
        In c (valid_pm_list machines vm_req')).
Proof.
  split; [| split; [| split]].
  - apply valid_pm_list_ids.
  - intros Hnd. eapply sublist_NoDup; [exact Hnd | apply valid_pm_list_ids].
  - split.
    + intros Hnil pm Hin.
      destruct (Z_lt_ge_dec
                  (PhysicalMachine.cap_cpu pm - PhysicalMachine.req_cpu pm)
                  (VirtualMachine.req_cpu vm_req)) as [Hlt | Hge]; [exact Hlt |].
      assert (Hc : In (ValidPm.mk (PhysicalMachine.id pm)
                         (PhysicalMachine.cap_cpu pm - PhysicalMachine.req_cpu pm)
                         (PhysicalMachine.cap_mem pm - PhysicalMachine.req_mem pm))
                      (valid_pm_list machines vm_req)).
      { apply valid_pm_list_In. exists pm. repeat split; assumption. }
      rewrite Hnil in Hc. destruct Hc.
    + intros Hall.
      destruct (valid_pm_list machines vm_req) as [| c l] eqn:E; [reflexivity |].
      assert (Hc : In c (valid_pm_list machines vm_req)) by (rewrite E; now left).
      apply valid_pm_list_In in Hc as (pm & Hin & Hge & _).
      specialize (Hall pm Hin). lia.
  - intros vm_req' c Hle Hin.
    apply valid_pm_list_In in Hin as (pm & Hin & Hge & ->).
    apply valid_pm_list_In. exists pm. repeat split; [assumption | lia].
Qed.

(** X20.  When there is a candidate, the requirement handler asks for a
    decision whatever the buffer time of the request, exhausted or not: it
    sets the pending id, attaches to the event one decision event for the
    same tick that carries the buffer time unchanged, and touches neither
    the counters, nor the latency, nor the event buffer, nor the machines,
    nor the live table. *)
Theorem candidate_found_ignores_buffer_time s evt p :
  payload evt = PRequirement p ->
  valid_pm_list (_machines s) (VmRequirementPayload.vm_req p) <> [] ->
  exists evt' s' decision d,
    _on_vm_required evt s = (Ok evt', s')
    /\ immediate_event_list evt' = immediate_event_list evt ++ [decision]
    /\ payload evt' = payload evt
    /\ tick decision = tick evt
    /\ event_type decision = Some PENDING_DECISION
    /\ payload decision = PDecision d
    /\ DecisionPayload.buffer_time d = VmRequirementPayload.buffer_time p
    /\ DecisionPayload.vm_info d = VmRequirementPayload.vm_req p
    /\ DecisionPayload.valid_pm d
       = valid_pm_list (_machines s) (VmRequirementPayload.vm_req p)
    /\ s' = set_pending_action_vm_id
              (VirtualMachine.id (VmRequirementPayload.vm_req p)) s.
Proof.
  intros Hp Hv. pose proof (_on_vm_required_eq s evt p Hp) as H. cbn zeta in H.
  destruct (valid_pm_list (_machines s) (VmRequirementPayload.vm_req p)) as [| c l] eqn:E;
    [contradiction |].
  eexists _, _, _, _. split; [exact H |]. cbn. repeat split.
Qed.

(** ** When the handlers return *)

(** X21.  The requirement handler returns exactly on a payload that has
    the two attributes it reads, a requirement payload or an action.  The
    finish handler returns exactly when the VM is live, its [pm_id] reads a
    machine and that machine's CPU capacity is not zero.  The action
    handler returns exactly on an action that postpones with no buffer
    time left: an assignment, and a postponement with buffer time left,
    raise. *)
Theorem handlers_return_iff s evt :
  ((exists evt' s', _on_vm_required evt s = (Ok evt', s'))
   <-> (exists p, payload evt = PRequirement p)
       \/ (exists a, payload evt = PAction a))
  /\ ((exists s', _on_vm_finished evt s = (Ok tt, s'))
      <-> exists vm_id vm i pm,
            payload evt = PFinished (VmFinishedPayload.mk vm_id)
            /\ _vm s !! vm_id = Some vm
            /\ py_index (_machines s) (VirtualMachine.pm_id vm) = Some i
            /\ _machines s !! i = Some pm
            /\ PhysicalMachine.cap_cpu pm <> 0)
  /\ ((exists evt' s', _on_action_received evt s = (Ok evt', s'))
      <-> exists a,
            payload evt = PAction a
            /\ Action.assign a = false
            /\ Action.buffer_time a <= 0).
Proof.
  split; [| split].
  - split.
    + intros (evt' & s' & H).
      destruct (payload evt) as [| p | p | p | a] eqn:Hp; eauto;
        rewrite _on_vm_required_bad_payload in H
          by (rewrite Hp; reflexivity); discriminate.
    + intros Hp.
      assert (Hr : exists vm_req b, requirement_of (payload evt) = Some (vm_req, b)).
      { destruct Hp as [[p ->] | [a ->]]; cbn; eauto. }
      destruct Hr as (vm_req & b & Hr).
      rewrite (_on_vm_required_of s evt vm_req b Hr).
      destruct (valid_pm_list _ _); [destruct (_ >? 0) |]; eauto.
  - split.
    + intros [s' H].
      assert (Hh : handle (Finish evt) s = (Ok tt, s')) by exact H.
      apply handle_Ok_returned in Hh. inversion Hh; subst. eauto 10.
    + intros (vm_id & vm & i & pm & Hp & Hvm & Hi & Hpm & Hcap).
      eexists. exact (_on_vm_finished_live s evt vm_id vm i pm Hp Hvm Hi Hpm Hcap).
  - split.
    + intros (evt' & s' & H).
      assert (Hh : handle (TakeAction evt) s = (Ok tt, s')).
      { cbn [handle]. unfold discard, bind. now rewrite H. }
      apply handle_Ok_returned in Hh. inversion Hh; subst; eauto 10.
    + intros (a & Hp & Ha & Hb).
      rewrite (_on_action_received_postpone s evt a Hp Ha).
      destruct (Z.gtb_spec (Action.buffer_time a) 0); [lia | eauto].
Qed.

(** ** The theorems at the example data centre *)

Lemma assign_stores_vm_then_raises_witness :
  payload example_assign = PAction example_action
  /\ _pending_action_vm_id example_pending = VirtualMachine.id example_vm
  /\ exists s' vm',
       _on_action_received example_assign example_pending = (Raise TypeError, s')
       /\ _vm s' = <[1 := vm']> (_vm example_pending)
       /\ VirtualMachine.pm_id vm' = 0
       /\ VirtualMachine.end_tick vm' = 10
       /\ _event_buffer s' = _event_buffer example_pending
       /\ _machines s' = _machines example_pending.
Proof.
  split; [reflexivity |]. split; [reflexivity |].
  destruct (assign_stores_vm_then_raises example_pending example_assign
              example_action eq_refl eq_refl)
    as (s' & vm' & Hrun & Hpm & Hst & Hend & _ & Hid & _ & _ & Hvm & Hbuf & Hm & _).
  exists s', vm'. rewrite Hid in Hvm. rewrite Hst in Hend.
  repeat split; assumption.
Defined.

Lemma postpone_charges_latency_then_raises_witness :
  payload example_postpone = PAction (Action.mk example_vm false 0 3)
  /\ (exists s',
        _on_action_received example_postpone example_pending
        = (Raise TypeError, s')
        /\ Latency.latency_due_to_agent (_total_latency s') = 5
        /\ _event_buffer s' = _event_buffer example_pending)
  /\ (exists s',
        _on_action_received example_give_up example_pending
        = (Ok example_give_up, s')
        /\ _failed_requirements s' = 1).
Proof.
  split; [reflexivity |]. split.
  - destruct (postpone_charges_latency_then_raises example_pending example_postpone
                (Action.mk example_vm false 0 3) eq_refl eq_refl) as [Hpos _].
    destruct Hpos as (s' & Hrun & Hlat & _ & Hbuf & _).
    + vm_compute. reflexivity.
    + exists s'. repeat split; assumption.
  - destruct (postpone_charges_latency_then_raises example_pending example_give_up
                (Action.mk example_vm false 0 0) eq_refl eq_refl) as [_ Hnon].
    destruct Hnon as (s' & Hrun & Hfail & _).
    + vm_compute. discriminate.
    + exists s'. split; assumption.
Defined.

Lemma no_candidate_postpones_or_fails_witness :
  valid_pm_list (_machines (init example_config)) example_big_vm = []
  /\ exists evt' s' postpone_event,
       _on_vm_required example_big_requirement (init example_config) = (Ok evt', s')
       /\ payload evt' = PRequirement (VmRequirementPayload.mk example_big_vm 1)
       /\ Latency.latency_due_to_resource (_total_latency s') = 5
       /\ _event_buffer s' = [postpone_event]
       /\ tick postpone_event = 5
       /\ event_type postpone_event = Some REQUIREMENTS.
Proof.
  split; [reflexivity |].
  destruct (no_candidate_postpones_or_fails (init example_config)
              example_big_requirement
              (VmRequirementPayload.mk example_big_vm 6) eq_refl eq_refl)
    as [Hpos _].
  destruct Hpos as (evt' & s' & e & Hrun & Hp & Hlat & _ & Hbuf & Htick & Hty & _).
  - vm_compute. reflexivity.
  - exists evt', s', e. repeat split; assumption.
Defined.

Lemma finish_releases_hosting_machine_witness :
  _vm example_hosting !! 1 = Some (placed (Action.mk example_vm true 0 6) 0)
  /\ exists s' pm',
       _on_vm_finished example_finish example_hosting = (Ok tt, s')
       /\ _machines s' = [pm']
       /\ PhysicalMachine.req_cpu pm' = 0
       /\ PhysicalMachine.req_mem pm' = 0
       /\ _vm s' = delete 1 (_vm example_hosting)
       /\ _successful_requirements s' = 1.
Proof.
  split; [vm_compute; reflexivity |].
  destruct (finish_releases_hosting_machine example_hosting example_finish 1
              (placed (Action.mk example_vm true 0 6) 0) 0%nat
              (hosting (placed (Action.mk example_vm true 0 6) 0)
                 (PhysicalMachine.init 0 100 10)))
    as (s' & pm' & Hrun & Hm & Hcpu & Hmem & _ & _ & _ & _ & _ & _ & Hv & _ & Hs & _).
  - reflexivity.
  - vm_compute. reflexivity.
  - reflexivity.
  - vm_compute. reflexivity.
  - apply elem_of_union_l, elem_of_singleton. reflexivity.
  - vm_compute. discriminate.
  - exists s', pm'. repeat split; assumption.
Defined.


Lemma capacity_respected_witness :
  0 <= pm_cap_cpu example_config
  /\ 0 <= pm_cap_mem example_config
  /\ reachable nonnegative_requests example_config example_released
  /\ forall pm, In pm (_machines example_released) ->
       PhysicalMachine.req_cpu pm <= PhysicalMachine.cap_cpu pm
       /\ PhysicalMachine.req_mem pm <= PhysicalMachine.cap_mem pm.
Proof.
  assert (Hcc : 0 <= pm_cap_cpu example_config) by (vm_compute; discriminate).
  assert (Hcm : 0 <= pm_cap_mem example_config) by (vm_compute; discriminate).
  assert (Hr : reachable nonnegative_requests example_config example_released).
  { exists example_inputs. vm_compute. reflexivity. }
  split; [exact Hcc |]. split; [exact Hcm |]. split; [exact Hr |].
  intros pm Hin.
  destruct (capacity_respected example_config example_released pm Hcc Hcm
              (or_intror Hr) Hin) as (H1 & H2 & _).
  split; assumption.
Defined.

Lemma stored_vm_is_reserved_on_no_machine_witness :
  _vm example_pending !! VirtualMachine.id example_vm = None
  /\ exists s',
       _on_action_received example_assign example_pending = (Raise TypeError, s')
       /\ live_total VirtualMachine.req_cpu (_vm s') = 10
       /\ sum_over PhysicalMachine.req_cpu (_machines s') = 0.
Proof.
  split; [reflexivity |].
  destruct (stored_vm_is_reserved_on_no_machine example_pending example_assign
              example_action eq_refl eq_refl eq_refl)
    as (s' & Hrun & _ & _ & Hlive & _ & Hsum & _).
  exists s'. split; [exact Hrun |]. split.
  - rewrite Hlive. reflexivity.
  - rewrite Hsum. reflexivity.
Defined.

Lemma mismatched_action_is_reported_then_handled_witness :
  VirtualMachine.id example_vm <> _pending_action_vm_id example_other_pending
  /\ stdout (snd (_on_action_received example_assign example_other_pending))
     = ["The VM id sent by agent is invalid."%string]
  /\ fst (_on_action_received example_assign example_other_pending)
     = Raise TypeError
  /\ fst (_on_action_received example_give_up example_other_pending)
     = Ok example_give_up.
Proof.
  assert (Hne : VirtualMachine.id example_vm
                <> _pending_action_vm_id example_other_pending)
    by (vm_compute; discriminate).
  split; [exact Hne |].
  destruct (mismatched_action_is_reported_then_handled example_other_pending
              example_assign example_action eq_refl Hne)
    as (Hout & _ & _ & _ & _ & Hassign & _).
  destruct (mismatched_action_is_reported_then_handled example_other_pending
              example_give_up (Action.mk example_vm false 0 0) eq_refl Hne)
    as (_ & _ & _ & _ & _ & _ & _ & Hfail).
  split; [exact Hout |]. split.
  - exact (proj1 (Hassign eq_refl)).
  - apply Hfail; [reflexivity | vm_compute; discriminate].
Defined.

Lemma postponement_chain_terminates_witness :
  valid_pm_list (_machines (init example_config)) example_big_vm = []
  /\ ceil_div 6 5 = 2
  /\ exists s',
       postpone_chain 3 example_big_requirement (init example_config)
       = Some (2%nat, s')
       /\ _failed_requirements s' = 1
       /\ Latency.latency_due_to_resource (_total_latency s') = 10.
Proof.
  split; [reflexivity |]. split; [reflexivity |].
  destruct (postponement_chain_terminates (init example_config)
              example_big_requirement
              (VmRequirementPayload.mk example_big_vm 6) 3%nat)
    as (s' & Hchain & _ & _ & Hfail & Hlat & _).
  - reflexivity.
  - reflexivity.
  - vm_compute. reflexivity.
  - vm_compute. discriminate.
  - vm_compute. lia.
  - exists s'. repeat split; assumption.
Defined.

(** ** The properties at the example data centre *)

Lemma machines_are_never_replaced_witness :
  reachable_with_ticks any_input example_config example_ticked
  /\ length (_machines example_ticked) = 1%nat
  /\ forall i pm, _machines example_ticked !! i = Some pm ->
       PhysicalMachine.cap_cpu pm = 100.
Proof.
  assert (Hr : reachable_with_ticks any_input example_config example_ticked).
  { exists example_calls. vm_compute. reflexivity. }
  destruct (machines_are_never_replaced any_input example_config
              example_ticked Hr) as (Hlen & Hm & _).
  split; [exact Hr |]. split; [exact Hlen |].
  intros i pm Hpm. exact (proj1 (proj2 (Hm i pm Hpm))).
Defined.

Lemma reservations_never_grow_witness :
  reachable_with_ticks nonnegative_requests example_config example_ticked
  /\ forall pm, In pm (_machines example_ticked) ->
       PhysicalMachine.req_cpu pm <= 0 /\ PhysicalMachine.req_mem pm <= 0.
Proof.
  assert (Hr : reachable_with_ticks nonnegative_requests example_config
                 example_ticked).
  { exists example_calls. vm_compute. reflexivity. }
  split; [exact Hr |]. intros pm Hin.
  exact (reservations_never_grow example_config example_ticked pm Hr Hin).
Defined.

Lemma no_machine_ever_hosts_witness :
  reachable_with_ticks any_input example_config example_finished
  /\ size (_vm example_assigned) = 1%nat
  /\ forall pm, In pm (_machines example_finished) ->
       PhysicalMachine.vm_set pm = ∅.
Proof.
  assert (Hr : reachable_with_ticks any_input example_config example_finished).
  { exists example_finished_calls. vm_compute. reflexivity. }
  split; [exact Hr |]. split; [vm_compute; reflexivity |]. intros pm Hin.
  exact (no_machine_ever_hosts any_input example_config example_finished pm Hr Hin).
Defined.

Lemma tick_event_is_never_served_witness :
  step 1 example_hosting
  = (Ok (series_from 0 1 (refreshed 1 (_vm example_hosting))
           (_machines example_hosting)),
     snd (step 1 example_hosting))
  /\ _tick (snd (step 1 example_hosting)) = 1.
Proof.
  assert (H : step 1 example_hosting
              = (Ok (series_from 0 1 (refreshed 1 (_vm example_hosting))
                       (_machines example_hosting)),
                 snd (step 1 example_hosting)))
    by (vm_compute; reflexivity).
  split; [exact H |].
  exact (proj1 (tick_event_is_never_served 1 example_hosting _ _ H)).
Defined.

Lemma latency_is_delay_times_postponements_witness :
  run_calls any_input example_calls (init example_config) = Some example_ticked
  /\ count_events postponed_for_resource (_event_buffer example_ticked) = 1
  /\ count_calls postponing example_calls = 1
  /\ Latency.latency_due_to_resource (_total_latency example_ticked) = 5 * 1
  /\ Latency.latency_due_to_agent (_total_latency example_ticked) = 5 * 1.
Proof.
  assert (Hr : run_calls any_input example_calls (init example_config)
               = Some example_ticked) by (vm_compute; reflexivity).
  assert (He : count_events postponed_for_resource (_event_buffer example_ticked)
               = 1) by (vm_compute; reflexivity).
  assert (Hc : count_calls postponing example_calls = 1)
    by (vm_compute; reflexivity).
  destruct (latency_is_delay_times_postponements any_input example_config
              example_calls example_ticked Hr) as [Hres Hag].
  rewrite He in Hres. rewrite Hc in Hag.
  split; [exact Hr |]. split; [exact He |]. split; [exact Hc |].
  split; [exact Hres | exact Hag].
Defined.

Lemma successes_are_covered_by_assignments_witness :
  run_calls any_input example_calls (init example_config) = Some example_ticked
  /\ count_calls assigning example_calls = 1
  /\ Z.of_nat (size (_vm example_ticked)) + _successful_requirements example_ticked
     = 1
  /\ Z.of_nat (size (_vm example_ticked)) + _successful_requirements example_ticked
     <= 1.
Proof.
  assert (Hr : run_calls any_input example_calls (init example_config)
               = Some example_ticked) by (vm_compute; reflexivity).
  assert (Hc : count_calls assigning example_calls = 1)
    by (vm_compute; reflexivity).
  destruct (successes_are_covered_by_assignments any_input example_config
              example_calls example_ticked Hr) as (_ & _ & Hcov).
  rewrite Hc in Hcov.
  split; [exact Hr |]. split; [exact Hc |].
  split; [vm_compute; reflexivity | exact Hcov].
Defined.

Lemma early_exceptions_change_nothing_witness :
  handle (Finish example_finish) (init example_config)
  = (Raise KeyError, init example_config)
  /\ init example_config = init example_config.
Proof.
  assert (H : handle (Finish example_finish) (init example_config)
              = (Raise KeyError, init example_config))
    by (vm_compute; reflexivity).
  split; [exact H |].
  exact (early_exceptions_change_nothing (init example_config)
           (Finish example_finish) KeyError (init example_config) H
           (or_intror (or_introl eq_refl))).
Defined.


Lemma negative_pm_id_counts_from_the_end_witness :
  _vm example_negative_assigned !! 1
  = Some (placed (Action.mk example_vm true (-1) 6) 0)
  /\ - Z.of_nat (length (_machines example_negative_assigned)) <= -1 < 0
  /\ exists pm',
       _machines (snd (_on_vm_finished example_finish example_negative_assigned))
       !! 0%nat = Some pm'
       /\ PhysicalMachine.req_cpu pm' = 0 - 10
       /\ PhysicalMachine.req_mem pm' = 0 - 20.
Proof.
  assert (Hvm : _vm example_negative_assigned !! 1
                = Some (placed (Action.mk example_vm true (-1) 6) 0))
    by (vm_compute; reflexivity).
  assert (Hz : - Z.of_nat (length (_machines example_negative_assigned)) <= -1 < 0)
    by (vm_compute; split; [discriminate | reflexivity]).
  split; [exact Hvm |]. split; [exact Hz |].
  destruct (negative_pm_id_counts_from_the_end example_negative_assigned
              example_finish 1 (placed (Action.mk example_vm true (-1) 6) 0)
              (PhysicalMachine.init 0 100 10) eq_refl Hvm Hz eq_refl)
    as (_ & (pm' & Hpm & Hcpu & Hmem & _) & _).
  exists pm'. split; [exact Hpm |]. split; [exact Hcpu | exact Hmem].
Defined.

Lemma finish_after_assignment_releases_unreserved_witness :
  py_index (_machines example_pending) (Action.pm_id example_action) = Some 0%nat
  /\ fst (_on_action_received example_assign example_pending) = Raise TypeError
  /\ exists pm2,
       _machines
         (snd (_on_vm_finished example_finish
                 (snd (_on_action_received example_assign example_pending))))
       !! 0%nat = Some pm2
       /\ PhysicalMachine.req_cpu pm2 = 0 - 10
       /\ PhysicalMachine.req_mem pm2 = 0 - 20.
Proof.
  split; [reflexivity |].
  destruct (finish_after_assignment_releases_unreserved example_pending
              example_assign example_action 0%nat
              (PhysicalMachine.init 0 100 10) example_finish
              eq_refl eq_refl eq_refl eq_refl eq_refl)
    as (Hraise & _ & (pm2 & Hpm & Hcpu & Hmem & _) & _).
  split; [exact Hraise |].
  exists pm2. split; [exact Hpm |]. split; [exact Hcpu | exact Hmem].
Defined.

Lemma tick_recomputes_utilisation_witness :
  step 1 example_hosting
  = (Ok (series_from 0 1 (refreshed 1 (_vm example_hosting))
           (_machines example_hosting)),
     snd (step 1 example_hosting))
  /\ _vm (snd (step 1 example_hosting)) = refreshed 1 (_vm example_hosting).
Proof.
  assert (H : step 1 example_hosting
              = (Ok (series_from 0 1 (refreshed 1 (_vm example_hosting))
                       (_machines example_hosting)),
                 snd (step 1 example_hosting)))
    by (vm_compute; reflexivity).
  split; [exact H |].
  exact (proj1 (tick_recomputes_utilisation 1 example_hosting _ _ H)).
Defined.

Lemma ticks_never_raise_witness :
  pm_cap_cpu example_config <> 0
  /\ reachable_with_ticks any_input example_config example_finished
  /\ size (_vm example_assigned) = 1%nat
  /\ exists series s', step 1 example_finished = (Ok series, s').
Proof.
  assert (Hcap : pm_cap_cpu example_config <> 0) by (vm_compute; discriminate).
  assert (Hr : reachable_with_ticks any_input example_config example_finished).
  { exists example_finished_calls. vm_compute. reflexivity. }
  split; [exact Hcap |]. split; [exact Hr |]. split; [vm_compute; reflexivity |].
  exact (ticks_never_raise any_input example_config example_finished 1 Hcap Hr).
Defined.

Lemma tick_resets_utilisation_witness :
  reachable_with_ticks any_input example_config example_finished
  /\ (exists pm, _machines example_finished = [pm]
                 /\ (PhysicalMachine.util_cpu pm < 0)%Q)
  /\ step 1 example_finished
     = (Ok (series_from 0 1 (refreshed 1 (_vm example_finished))
              (_machines example_finished)),
        snd (step 1 example_finished))
  /\ forall pm, In pm (_machines (snd (step 1 example_finished))) ->
       (PhysicalMachine.util_cpu pm == 0)%Q.
Proof.
  assert (Hr : reachable_with_ticks any_input example_config example_finished).
  { exists example_finished_calls. vm_compute. reflexivity. }
  assert (H : step 1 example_finished
              = (Ok (series_from 0 1 (refreshed 1 (_vm example_finished))
                       (_machines example_finished)),
                 snd (step 1 example_finished)))
    by (vm_compute; reflexivity).
  split; [exact Hr |]. split.
  { eexists. split; [vm_compute; reflexivity | vm_compute; reflexivity]. }
  split; [exact H |]. intros pm Hin.
  exact (proj1 (tick_resets_utilisation any_input example_config example_finished
                  1 _ _ pm Hr H Hin)).
Defined.

Lemma candidate_found_ignores_buffer_time_witness :
  valid_pm_list (_machines (init example_config)) example_vm <> []
  /\ exists evt' s',
       _on_vm_required example_requirement (init example_config) = (Ok evt', s')
       /\ _pending_action_vm_id s' = 1.
Proof.
  assert (Hv : valid_pm_list (_machines (init example_config)) example_vm <> [])
    by (vm_compute; discriminate).
  split; [exact Hv |].
  destruct (candidate_found_ignores_buffer_time (init example_config)
              example_requirement (VmRequirementPayload.mk example_vm 6)
              eq_refl Hv)
    as (evt' & s' & dec & d & H & _ & _ & _ & _ & _ & _ & _ & _ & ->).
  eexists evt', _. split; [exact H | reflexivity].
Defined.

